(** * Dispatch, open registration and gradient accumulation

    A shallow embedding of four translation units of the runtime:

    - [c10/util/DeadlockDetection.cpp]            (module [c10_impl])
    - [aten/src/ATen/DeviceAccelerator.cpp]       (module [ATen])
    - [test/cpp_extensions/open_registration_extension.cpp]
                                                  (module [open_registration])
    - [torch/csrc/autograd/functions/accumulate_grad.cpp]
                                                  (module [autograd])

    C++ globals and object fields become explicit state records, a call
    that may throw returns an [Outcome], [uint64_t] arithmetic is carried
    out on [Z] with the wrap-around written out, and name-keyed tables
    (the process environment, the kernel table of a dispatch key) are
    finite maps. *)

From Stdlib Require Import ZArith Bool.
From stdpp Require Import gmap strings list fin_maps.

Local Open Scope Z_scope.

(** ** C++ control flow *)

(** A call either returns a value or leaves through a C++ exception. *)
Inductive Outcome (E A : Type) : Type :=
| Returned (a : A)
| Threw (e : E).
Arguments Returned {E A} a.
Arguments Threw {E A} e.

Global Instance Outcome_ret {E} : MRet (Outcome E) := fun A a => Returned a.

Global Instance Outcome_bind {E} : MBind (Outcome E) := fun A B k c =>
  match c with
  | Returned a => k a
  | Threw e => Threw e
  end.

Definition returns {E A} (c : Outcome E A) : bool :=
  match c with Returned _ => true | Threw _ => false end.

(** [uint64_t]: values live in [0, 2^64) and arithmetic wraps. *)
Definition UINT64_MAX : Z := 2 ^ 64 - 1.
Definition wrap64 (z : Z) : Z := z mod 2 ^ 64.
Definition is_uint64 (z : Z) : Prop := 0 <= z <= UINT64_MAX.

(** [int8_t], the type of [c10::DeviceIndex]: values live in [-128, 128)
    and a value out of range is reduced modulo 2^8 on conversion. *)
Definition wrap_int8 (z : Z) : Z := (z + 128) mod 256 - 128.

(** ** c10/util/DeadlockDetection.cpp *)

Module c10_impl.

(** The process environment block read by [std::getenv]. *)
Definition getenv (environ : gmap string string) (name : string) : option string :=
  environ !! name.

(** [PythonGILHooks] is an interface with one virtual query; an
    implementation is determined by what that query answers. *)
Record PythonGILHooks := { hooks_check_python_gil : bool }.

(** The file-local global [python_gil_hooks]; [None] is [nullptr]. *)
Record Globals := { python_gil_hooks : option PythonGILHooks }.

Definition initial : Globals := {| python_gil_hooks := None |}.

Inductive Error := InternalAssert (cond : string).

Definition disable_detection (environ : gmap string string) : bool :=
  match getenv environ "TORCH_DISABLE_DEADLOCK_DETECTION" with
  | Some _ => true
  | None => false
  end.

Definition check_python_gil (g : Globals) : bool :=
  match python_gil_hooks g with
  | None => false
  | Some h => hooks_check_python_gil h
  end.

Definition SetPythonGILHooks (environ : gmap string string)
    (hooks : option PythonGILHooks) (g : Globals) : Outcome Error Globals :=
  if disable_detection environ then Returned g
  else if negb (bool_decide (is_Some hooks))
          || negb (bool_decide (is_Some (python_gil_hooks g)))
  then Returned {| python_gil_hooks := hooks |}
  else Threw (InternalAssert "!hooks || !python_gil_hooks").

(** The global after a call of [SetPythonGILHooks]: the assertion comes
    before the assignment, so a call that throws leaves it as it was. *)
Definition after_SetPythonGILHooks (environ : gmap string string)
    (g : Globals) (hooks : option PythonGILHooks) : Globals :=
  match SetPythonGILHooks environ hooks g with
  | Returned g' => g'
  | Threw _ => g
  end.

End c10_impl.

(** ** aten/src/ATen/DeviceAccelerator.cpp *)

Module ATen.

(** The members of [c10::DeviceType] this file mentions, and [CPU]. *)
Inductive DeviceType := kCPU | kCUDA | kMTIA | kXPU | kHIP | kMPS | kPrivateUse1.

Global Instance DeviceType_eq_dec : EqDecision DeviceType.
Proof. solve_decision. Defined.

(** What [at::hasCUDA()] and its siblings and
    [is_privateuse1_backend_registered()] answer in this process; they
    are queries of the global context, declared in [ATen/Context.h]. *)
Record Context := {
  is_privateuse1_backend_registered : bool;
  hasCUDA : bool;
  hasMTIA : bool;
  hasXPU : bool;
  hasHIP : bool;
  hasMPS : bool
}.

(** The two [TORCH_CHECK] failures of [getAccelerator], each with the
    arguments its message is formatted from. *)
Inductive Error :=
| Cannot_have_with_other_accelerators (d : DeviceType)
| Cannot_access_accelerator_when_none_available.

(** The locals [device_type] and [is_accelerator_detected]. *)
Record Locals := {
  device_type : option DeviceType;
  is_accelerator_detected : bool
}.

(** One expansion of the macro [DETECT_AND_ASSIGN_ACCELERATOR]. *)
Definition DETECT_AND_ASSIGN_ACCELERATOR (has : bool) (k : DeviceType)
    (l : Locals) : Outcome Error Locals :=
  if has then
    if is_accelerator_detected l
    then Threw (Cannot_have_with_other_accelerators k)
    else Returned {| device_type := Some k; is_accelerator_detected := true |}
  else Returned l.

Definition getAccelerator (ctx : Context) (checked : bool)
    : Outcome Error (option DeviceType) :=
  if is_privateuse1_backend_registered ctx then Returned (Some kPrivateUse1)
  else
    l ← DETECT_AND_ASSIGN_ACCELERATOR (hasCUDA ctx) kCUDA
           {| device_type := None; is_accelerator_detected := false |};
    l ← DETECT_AND_ASSIGN_ACCELERATOR (hasMTIA ctx) kMTIA l;
    l ← DETECT_AND_ASSIGN_ACCELERATOR (hasXPU ctx) kXPU l;
    l ← DETECT_AND_ASSIGN_ACCELERATOR (hasHIP ctx) kHIP l;
    l ← DETECT_AND_ASSIGN_ACCELERATOR (hasMPS ctx) kMPS l;
    if checked && negb (bool_decide (is_Some (device_type l)))
    then Threw Cannot_access_accelerator_when_none_available
    else Returned (device_type l).

Definition isAccelerator (d : DeviceType) : bool :=
  match d with
  | kCUDA | kMTIA | kXPU | kHIP | kMPS | kPrivateUse1 => true
  | _ => false
  end.

(** The built-in accelerators, in the order [getAccelerator] probes them. *)
Definition builtin_accelerators : list DeviceType :=
  [kCUDA; kMTIA; kXPU; kHIP; kMPS].

Definition has (ctx : Context) (d : DeviceType) : bool :=
  match d with
  | kCUDA => hasCUDA ctx
  | kMTIA => hasMTIA ctx
  | kXPU => hasXPU ctx
  | kHIP => hasHIP ctx
  | kMPS => hasMPS ctx
  | kPrivateUse1 => is_privateuse1_backend_registered ctx
  | kCPU => true
  end.

(** The built-in accelerators detected in this process. *)
Definition detected (ctx : Context) : list DeviceType :=
  filter (fun d => has ctx d = true) builtin_accelerators.

(** What the claim says [getAccelerator] does, in terms of the list of
    detected built-in accelerators. *)
Definition getAccelerator_spec (ctx : Context) (checked : bool)
    : Outcome Error (option DeviceType) :=
  if is_privateuse1_backend_registered ctx
  then Returned (Some kPrivateUse1)
  else match detected ctx with
       | [] => if checked
               then Threw Cannot_access_accelerator_when_none_available
               else Returned None
       | [d] => Returned (Some d)
       | _ :: second :: _ =>
           Threw (Cannot_have_with_other_accelerators second)
       end.

(** The members of [c10::ScalarType] used below. *)
Inductive ScalarType := Byte | Int | Long | Half | Float | Double.

Global Instance ScalarType_eq_dec : EqDecision ScalarType.
Proof. solve_decision. Defined.

End ATen.


(** ** test/cpp_extensions/open_registration_extension.cpp *)

Module open_registration.

Record Device := { dev_type : ATen.DeviceType; dev_index : Z }.

(** The part of [at::TensorOptions] the kernels of this file read. *)
Record TensorOptions := {
  opt_dtype : option ATen.ScalarType;
  opt_device : option Device
}.

(** A tensor handle.  [storage] is the identity of the memory block behind
    [storage().data_ptr()]; handles with the same [storage] alias each
    other.  [is_contiguous] is what [is_contiguous()] answers for the
    sizes and strides of the handle. *)
Record Tensor := {
  sizes : list Z;
  strides : list Z;
  storage_offset : Z;
  scalar_type : ATen.ScalarType;
  device : Device;
  is_contiguous : bool;
  storage : nat
}.

Definition options (t : Tensor) : TensorOptions :=
  {| opt_dtype := Some (scalar_type t); opt_device := Some (device t) |}.

Definition numel (size : list Z) : Z := foldr Z.mul 1 size.

Definition is_cpu (t : Tensor) : bool :=
  bool_decide (dev_type (device t) = ATen.kCPU).

Definition is_privateuseone (t : Tensor) : bool :=
  bool_decide (dev_type (device t) = ATen.kPrivateUse1).

Record Generator := { gen_device : Device }.

(** The file's static variables, the single-writer generator slot behind
    [at::GetGeneratorPrivate()], and the memory of the process.  Memory is
    kept at the granularity of tensor elements: [heap] maps a block to its
    cells, and a raw copy of [nbytes] bytes between tensors of one scalar
    type is a copy of that many bytes' worth of cells.  [raw_memory b i] is
    what cell [i] of block [b] holds when [c10::alloc_cpu] hands the block
    out; the allocator writes nothing. *)
Record Globals := {
  add_counter : Z;
  last_saved_value : Z;
  custom_device_index : Z;
  generator_private : option (Z -> Generator);
  heap : gmap nat (list Z);
  raw_memory : nat -> nat -> Z
}.

Definition initial (raw : nat -> nat -> Z) : Globals :=
  {| add_counter := 0; last_saved_value := 0; custom_device_index := 0;
     generator_private := None; heap := ∅; raw_memory := raw |}.

Definition with_heap (g : Globals) (h : gmap nat (list Z)) : Globals :=
  {| add_counter := add_counter g; last_saved_value := last_saved_value g;
     custom_device_index := custom_device_index g;
     generator_private := generator_private g;
     heap := h; raw_memory := raw_memory g |}.

Inductive Error :=
| Check_failed (what : string)
| Unimplemented_for_backend (op : string)
| Wrong_kernel_signature (op : string)
| Generator_already_registered.

(** Row-major strides of a freshly made tensor. *)
Fixpoint contiguous_strides (size : list Z) : list Z :=
  match size with
  | [] => []
  | _ :: rest => foldr (fun n acc => Z.max n 1 * acc) 1 rest :: contiguous_strides rest
  end.

(** Modelled from the spec: [at::detail::empty_generic] (ATen/EmptyTensor.h)
    is not among the sources; it returns an uninitialized but correctly
    shaped tensor whose memory comes from the given allocator.  Here the
    allocator is [DummyCustomAllocator] or the CPU allocator, both of which
    return [c10::alloc_cpu] memory tagged with their device. *)
Definition empty_generic (size : list Z) (alloc_device : Device)
    (dtype : ATen.ScalarType) (g : Globals) : Tensor * Globals :=
  let block := fresh (dom (heap g)) in
  ({| sizes := size; strides := contiguous_strides size; storage_offset := 0;
      scalar_type := dtype; device := alloc_device; is_contiguous := true;
      storage := block |},
   with_heap g
     (<[block := map (raw_memory g block) (seq 0 (Z.to_nat (numel size)))]> (heap g))).

Definition dtype_or_default (dtype : option ATen.ScalarType) : ATen.ScalarType :=
  default ATen.Float dtype.

(** [DummyCustomAllocator::allocate] tags its memory with
    [custom_device_index]; the [device] argument of the kernel is ignored. *)
Definition custom_empty_symint (size : list Z) (dtype : option ATen.ScalarType)
    (dev : option Device) (g : Globals) : Tensor * Globals :=
  empty_generic size
    {| dev_type := ATen.kPrivateUse1; dev_index := custom_device_index g |}
    (dtype_or_default dtype) g.

(** [at::empty(size, options)]: on the custom device the registration
    below routes [empty.memory_format] to [custom_empty_symint]; on any
    other device the native CPU kernel allocates with the CPU allocator. *)
Definition at_empty (size : list Z) (o : TensorOptions) (g : Globals)
    : Tensor * Globals :=
  match opt_device o with
  | Some {| dev_type := ATen.kPrivateUse1 |} =>
      custom_empty_symint size (opt_dtype o) (opt_device o) g
  | _ =>
      empty_generic size {| dev_type := ATen.kCPU; dev_index := -1 |}
        (dtype_or_default (opt_dtype o)) g
  end.

Definition bump_add_counter (g : Globals) : Globals :=
  {| add_counter := wrap64 (add_counter g + 1);
     last_saved_value := last_saved_value g;
     custom_device_index := custom_device_index g;
     generator_private := generator_private g;
     heap := heap g; raw_memory := raw_memory g |}.

(** basic dummy add function *)
Definition custom_add_Tensor (self other : Tensor) (alpha : Z) (g : Globals)
    : Tensor * Globals :=
  at_empty (sizes self) (options self) (bump_add_counter g).

Definition custom_add_called (g : Globals) : bool * Globals :=
  if add_counter g >? last_saved_value g
  then (true,
        {| add_counter := add_counter g; last_saved_value := add_counter g;
           custom_device_index := custom_device_index g;
           generator_private := generator_private g;
           heap := heap g; raw_memory := raw_memory g |})
  else (false, g).

(** *** Reading and writing through a handle *)

(** The index tuples of a shape, in row-major order. *)
Fixpoint indices (size : list Z) : list (list Z) :=
  match size with
  | [] => [[]]
  | n :: rest => i ← seqZ 0 n; (fun idx => i :: idx) <$> indices rest
  end.

(** The cell an index tuple designates. *)
Definition cell_of (t : Tensor) (idx : list Z) : nat :=
  Z.to_nat (storage_offset t + foldr Z.add 0 (zip_with Z.mul idx (strides t))).

(** The elements of a tensor in row-major order; a cell outside the block
    reads as 0. *)
Definition elements (h : gmap nat (list Z)) (t : Tensor) : list Z :=
  (fun idx => default 0 (default [] (h !! storage t) !! cell_of t idx))
    <$> indices (sizes t).

(** An elementwise copy that honours sizes, strides and offsets, as
    [at::Tensor::copy_] makes between two CPU tensors of one shape. *)
Definition strided_copy (dst src : Tensor) (h : gmap nat (list Z))
    : gmap nat (list Z) :=
  foldl (fun h idx =>
           let x := default 0 (default [] (h !! storage src) !! cell_of src idx) in
           <[storage dst := <[cell_of dst idx := x]> (default [] (h !! storage dst))]> h)
        h (indices (sizes dst)).

(** *** Copy between the custom device and the CPU *)

(** [std::memcpy(dst, src, count)] from the start of one block to the start
    of another, [count] in cells.  [None] is undefined behaviour: a block
    that is not there, or a count that runs past the end of either block.
    Source and destination start at the start of their blocks, so they
    overlap only when they are one block, which is then copied onto
    itself and left as it is. *)
Definition memcpy (dst src : nat) (count : nat) (h : gmap nat (list Z))
    : option (gmap nat (list Z)) :=
  match h !! dst, h !! src with
  | Some d, Some s =>
      if (count <=? length d)%nat && (count <=? length s)%nat
      then Some (<[dst := take count s ++ drop count d]> h)
      else None
  | _, _ => None
  end.

(** [t.storage().nbytes()], in cells. *)
Definition storage_cells (h : gmap nat (list Z)) (t : Tensor) : nat :=
  length (default [] (h !! storage t)).

(** [at::detail::check_size_nonnegative] (ATen/EmptyTensor.h) is not among
    the sources; it is modelled after its name. *)
Definition check_size_nonnegative (size : list Z) : Outcome Error unit :=
  if forallb (fun n => 0 <=? n) size then Returned ()
  else Threw (Check_failed "Trying to create tensor with negative dimension").

(** Unsafe using dummy device data_ptr to creat a cpu tensor, and shared
    data_ptr.  The Storage object of the result is a new one, sized by
    [computeStorageNbytes] and with a deleter that does nothing, around the
    very memory of [src]. *)
Definition unsafe_create_cpu_tensor_from_dummy_tensor (src : Tensor)
    : Outcome Error Tensor :=
  if negb (is_privateuseone src)
  then Threw (Check_failed "Only support dummy device.")
  else
    _ ← check_size_nonnegative (sizes src);
    Returned {| sizes := sizes src; strides := strides src;
                storage_offset := storage_offset src;
                scalar_type := scalar_type src;
                device := {| dev_type := ATen.kCPU; dev_index := -1 |};
                is_contiguous := is_contiguous src;
                storage := storage src |}.

(** The lambda [convert_to_cpu_tensor] of [custom__copy_from]. *)
Definition convert_to_cpu_tensor (src : Tensor) : Outcome Error Tensor :=
  if is_privateuseone src
  then unsafe_create_cpu_tensor_from_dummy_tensor src
  else Returned src.

Section copy.

(** [at::Tensor::copy_] between CPU tensors (ATen/native/Copy.h) is not
    among the sources: [copy_ dst src h] is the memory it leaves. *)
Variable copy_ : Tensor -> Tensor -> gmap nat (list Z) -> gmap nat (list Z).

(** basic dummy copy_() function, so we can copy from the custom device
    to/from CPU.  [None]: the call runs into undefined behaviour. *)
Definition custom__copy_from (self dst : Tensor) (non_blocking : bool)
    (g : Globals) : option (Outcome Error (Tensor * Globals)) :=
  if negb (is_cpu self || is_privateuseone self)
  then Some (Threw (Check_failed
               "Dummy test only allows copy from cpu -> dummy device."))
  else if negb (is_cpu dst || is_privateuseone dst)
  then Some (Threw (Check_failed
               "Dummy test only allows copy from cpu -> dummy device."))
  else if negb (bool_decide (sizes self = sizes dst))
  then Some (Threw (Check_failed "self.sizes() == dst.sizes()"))
  else if negb (bool_decide (scalar_type self = scalar_type dst))
  then Some (Threw (Check_failed "self.scalar_type() == dst.scalar_type()"))
  else if is_contiguous self && is_contiguous dst
  then
    match memcpy (storage dst) (storage self) (storage_cells (heap g) self) (heap g) with
    | Some h => Some (Returned (dst, with_heap g h))
    | None => None
    end
  else
    Some (cpu_self ← convert_to_cpu_tensor self;
          cpu_dst ← convert_to_cpu_tensor dst;
          Returned (dst, with_heap g (copy_ cpu_dst cpu_self (heap g)))).

Definition custom__copy_from_and_resize (self dst : Tensor) (g : Globals)
    : option (Outcome Error (Tensor * Globals)) :=
  custom__copy_from self dst false g.

End copy.

(** The preconditions [custom__copy_from] checks before it copies. *)
Definition copy_preconditions (self dst : Tensor) : bool :=
  (is_cpu self || is_privateuseone self)
  && (is_cpu dst || is_privateuseone dst)
  && bool_decide (sizes self = sizes dst)
  && bool_decide (scalar_type self = scalar_type dst).

(** *** Kernel registration *)

(** The callables handed to [m.impl] in the two [TORCH_LIBRARY_IMPL]
    blocks. *)
Inductive Kernel :=
| custom_abs_out_
| custom_add_Tensor_
| custom_empty_symint_
| custom_fill__scalar_
| custom__copy_from_
| custom__copy_from_and_resize_
| custom_empty_strided_
| custom_set_source_Storage_
| custom_set_source_Storage_storage_offset_
| custom_resize__
| native_as_strided_tensorimpl_
| native_quantize_per_tensor_
| fused_sdp_choice_privateuse1_
| custom_scaled_dot_product_fused_attention_overrideable_
| custom_scaled_dot_product_fused_attention_overrideable_backward_
| boxed_custom_cpu_fallback_.

Definition impl (name : string) (k : Kernel) (m : gmap string Kernel)
    : gmap string Kernel := <[name := k]> m.

(** [TORCH_LIBRARY_IMPL(aten, PrivateUse1, m)], first block then second. *)
Definition PrivateUse1_kernels : gmap string Kernel :=
  impl "triu_indices" boxed_custom_cpu_fallback_
  (impl "index.Tensor" boxed_custom_cpu_fallback_
  (impl "_fused_adamw_" boxed_custom_cpu_fallback_
  (impl "_foreach_add.List" boxed_custom_cpu_fallback_
  (impl "sub.Tensor" boxed_custom_cpu_fallback_
  (impl "_scaled_dot_product_fused_attention_overrideable_backward"
        custom_scaled_dot_product_fused_attention_overrideable_backward_
  (impl "_scaled_dot_product_fused_attention_overrideable"
        custom_scaled_dot_product_fused_attention_overrideable_
  (impl "_fused_sdp_choice" fused_sdp_choice_privateuse1_
  (impl "quantize_per_tensor" native_quantize_per_tensor_
  (impl "as_strided" native_as_strided_tensorimpl_
  (impl "resize_" custom_resize__
  (impl "set_.source_Storage_storage_offset"
        custom_set_source_Storage_storage_offset_
  (impl "set_.source_Storage" custom_set_source_Storage_
  (impl "empty_strided" custom_empty_strided_
  (impl "_copy_from_and_resize" custom__copy_from_and_resize_
  (impl "_copy_from" custom__copy_from_
  (impl "fill_.Scalar" custom_fill__scalar_
  (impl "empty.memory_format" custom_empty_symint_
  (impl "add.Tensor" custom_add_Tensor_
  (impl "abs.out" custom_abs_out_ ∅))))))))))))))))))).

(** Modelled from the spec: the dispatcher (c10/core/dispatch) is not among
    the sources.  For a call whose highest-priority key is PrivateUse1 it
    looks the operator up in that key's table; no device-wide boxed
    fallback is registered by this file, so an absent operator is
    unimplemented for the backend. *)
Definition dispatch_PrivateUse1 (op : string) : Outcome Error Kernel :=
  match PrivateUse1_kernels !! op with
  | Some k => Returned k
  | None => Threw (Unimplemented_for_backend op)
  end.

(** Modelled from the spec: [at::native::cpu_fallback]
    (ATen/native/CPUFallback.h) is not among the sources; it converts the
    arguments to CPU tensors, invokes the CPU kernel of the same operator
    and converts the result back.  For [add.Tensor] the CPU kernel is the
    elementwise [self + alpha * other], in a tensor of its own. *)
Definition cpu_fallback_add_Tensor (self other : Tensor) (alpha : Z)
    (g : Globals) : Tensor * Globals :=
  let block := fresh (dom (heap g)) in
  ({| sizes := sizes self; strides := contiguous_strides (sizes self);
      storage_offset := 0; scalar_type := scalar_type self;
      device := device self; is_contiguous := true; storage := block |},
   with_heap g
     (<[block := zip_with (fun a b => a + alpha * b)
                   (elements (heap g) self) (elements (heap g) other)]> (heap g))).

(** [at::add(self, other, alpha)] with [self] on the custom device: the
    dispatcher selects the kernel and invokes it. *)
Definition call_add_Tensor (self other : Tensor) (alpha : Z) (g : Globals)
    : Outcome Error (Tensor * Globals) :=
  k ← dispatch_PrivateUse1 "add.Tensor";
  match k with
  | custom_add_Tensor_ => Returned (custom_add_Tensor self other alpha g)
  | boxed_custom_cpu_fallback_ =>
      Returned (cpu_fallback_add_Tensor self other alpha g)
  | _ => Threw (Wrong_kernel_signature "add.Tensor")
  end.

(** *** Generator registration *)

(** this is used to register generator *)
Definition make_generator_privateuse1 (device_index : Z) : Generator :=
  {| gen_device := {| dev_type := ATen.kPrivateUse1; dev_index := device_index |} |}.

(** Modelled from the spec: the macro [REGISTER_GENERATOR_PRIVATEUSE1]
    (ATen/core/GeneratorForPrivateuseone.h) is not among the sources.  The
    generator-factory registry is a single-writer slot: registration into
    an empty slot stores the factory, a later attempt fails and leaves the
    slot as it is. *)
Definition REGISTER_GENERATOR_PRIVATEUSE1 (f : Z -> Generator) (g : Globals)
    : Outcome Error Globals :=
  match generator_private g with
  | Some _ => Threw Generator_already_registered
  | None =>
      Returned {| add_counter := add_counter g;
                  last_saved_value := last_saved_value g;
                  custom_device_index := custom_device_index g;
                  generator_private := Some f;
                  heap := heap g; raw_memory := raw_memory g |}
  end.

Definition register_generator_first (g : Globals) : Outcome Error Globals :=
  REGISTER_GENERATOR_PRIVATEUSE1 make_generator_privateuse1 g.

Definition register_generator_second (g : Globals) : Outcome Error Globals :=
  REGISTER_GENERATOR_PRIVATEUSE1 make_generator_privateuse1 g.

(** Modelled from the spec: the lookup [at::GetGeneratorPrivate()] returns
    the factory held by the slot, if any. *)
Definition GetGeneratorPrivate (g : Globals) : option (Z -> Generator) :=
  generator_private g.

(** *** Device handle *)

(** This basic implementation doesn't bother dealing with different device
    indices. *)
Definition get_custom_device : Device :=
  {| dev_type := ATen.kPrivateUse1; dev_index := 0 |}.

Definition set_custom_device_index (device_index : Z) (g : Globals) : Globals :=
  {| add_counter := add_counter g; last_saved_value := last_saved_value g;
     custom_device_index := wrap_int8 device_index;
     generator_private := generator_private g;
     heap := heap g; raw_memory := raw_memory g |}.

(** *** Tensors of the basic use case *)

(** The offset of an index tuple under the given strides. *)
Definition linear_offset (stride idx : list Z) : Z :=
  foldr Z.add 0 (zip_with Z.mul idx stride).

(** A tensor that covers the whole of its block in row-major order, as
    [empty_generic] makes them. *)
Definition whole_block (h : gmap nat (list Z)) (t : Tensor) : Prop :=
  storage_offset t = 0 /\
  strides t = contiguous_strides (sizes t) /\
  Forall (fun n => 0 <= n) (sizes t) /\
  is_contiguous t = true /\
  exists b, h !! storage t = Some b /\ length b = Z.to_nat (numel (sizes t)).

(** *** Backend metadata and its serialization *)

(** What the backend-meta slot of a TensorImpl may point to: the metadata
    of this backend, or a [c10::BackendMeta] of another dynamic type. *)
Inductive BackendMeta :=
| CustomBackendMetadata (backend_version_format_ format_number_ : Z) (cloned_ : bool)
| OtherBackendMeta.

(** we need to register two functions for serialization.  The argument is
    the backend-meta slot of [t]; [None] as a result is undefined
    behaviour: the [dynamic_cast] gave a null pointer that is then
    dereferenced. *)
Definition for_serialization (meta : option BackendMeta) (m : gmap string bool)
    : option (gmap string bool) :=
  match meta with
  | None => Some m
  | Some OtherBackendMeta => None
  | Some (CustomBackendMetadata backend_version_format format_number _) =>
      let m := if backend_version_format =? 1
               then <["backend_version_format" := true]> m else m in
      let m := if format_number =? 29
               then <["format_number" := true]> m else m in
      Some m
  end.

(** The result is the new content of the backend-meta slot of [t]. *)
Definition for_deserialization (m : gmap string bool) : option BackendMeta :=
  let backend_version_format :=
    if bool_decide (is_Some (m !! "backend_version_format")) then 1 else -1 in
  let format_number :=
    if bool_decide (is_Some (m !! "format_number")) then 29 else -1 in
  Some (CustomBackendMetadata backend_version_format format_number false).

(** check if BackendMeta serialization correctly *)
Definition check_backend_meta (meta : option BackendMeta) : option bool :=
  match meta with
  | None => Some false
  | Some OtherBackendMeta => None
  | Some (CustomBackendMetadata backend_version_format format_number _) =>
      Some ((backend_version_format =? 1) && (format_number =? 29))
  end.

(** a fake set function is exposed to the Python side *)
Definition custom_set_backend_meta : option BackendMeta :=
  Some (CustomBackendMetadata 1 29 false).

(** *** Device hooks *)

Inductive Allocator := CPUAllocator | DummyCustomAllocator.

(** The global [custom_pinned_flag] and the function-local static
    [device_gen] of [getDefaultGenerator], [None] until its initializer
    has run. *)
Record HooksState := {
  custom_pinned_flag : bool;
  device_gen : option Generator
}.

Definition hooks_initial : HooksState :=
  {| custom_pinned_flag := false; device_gen := None |}.

Definition getDefaultGenerator (device_index : Z) (s : HooksState)
    : Generator * HooksState :=
  match device_gen s with
  | Some gen => (gen, s)
  | None =>
      let gen := make_generator_privateuse1 device_index in
      (gen, {| custom_pinned_flag := custom_pinned_flag s; device_gen := Some gen |})
  end.

Definition isPinnedPtr (data : nat) (s : HooksState) : bool :=
  custom_pinned_flag s.

Definition getPinnedMemoryAllocator (s : HooksState) : Allocator * HooksState :=
  (CPUAllocator, {| custom_pinned_flag := true; device_gen := device_gen s |}).

(** A call of one of the three methods of [FooHooksInterface]. *)
Inductive HooksCall :=
| call_getDefaultGenerator (device_index : Z)
| call_isPinnedPtr (data : nat)
| call_getPinnedMemoryAllocator.

Definition after_call (s : HooksState) (c : HooksCall) : HooksState :=
  match c with
  | call_getDefaultGenerator device_index => snd (getDefaultGenerator device_index s)
  | call_isPinnedPtr _ => s
  | call_getPinnedMemoryAllocator => snd (getPinnedMemoryAllocator s)
  end.

Definition is_getPinnedMemoryAllocator (c : HooksCall) : bool :=
  match c with call_getPinnedMemoryAllocator => true | _ => false end.

(** *** Attention *)

(** [t.size(dim)] for a dimension counted from the front: out of range it
    raises. *)
Definition size (t : Tensor) (dim : nat) : Outcome Error Z :=
  match sizes t !! dim with
  | Some n => Returned n
  | None => Threw (Check_failed "Dimension out of range")
  end.

(** The nine results of the attention kernel; [None] is an undefined
    tensor. *)
Record AttentionOutputs := {
  att_output : Tensor;
  att_logsumexp : Tensor;
  att_cum_seq_q : option Tensor;
  att_cum_seq_k : option Tensor;
  att_max_seqlen_q : Z;
  att_max_seqlen_kv : Z;
  att_philox_seed : Tensor;
  att_philox_offset : Tensor;
  att_debug_attn_mask : Tensor
}.

(** [opts.dtype(t)] *)
Definition with_dtype (o : TensorOptions) (t : ATen.ScalarType) : TensorOptions :=
  {| opt_dtype := Some t; opt_device := opt_device o |}.

(** [at::dtype(t)] *)
Definition dtype_options (t : ATen.ScalarType) : TensorOptions :=
  {| opt_dtype := Some t; opt_device := None |}.

(** The arguments [attn_bias], [dropout_p] and [scale] are not read. *)
Definition custom_scaled_dot_product_fused_attention_overrideable
    (query key value : Tensor) (is_causal return_debug_mask : bool)
    (g : Globals) : Outcome Error (AttentionOutputs * Globals) :=
  batch_size ← size query 0;
  num_heads ← size query 1;
  head_dim_qk ← size query 3;
  head_dim_v ← size value 3;
  max_seqlen_q ← size query 2;
  max_seqlen_kv ← size key 2;
  let opts := options query in
  let '(output, g) := at_empty [batch_size; num_heads; max_seqlen_q; head_dim_v] opts g in
  let '(logsumexp, g) :=
    at_empty [batch_size; num_heads; max_seqlen_q] (with_dtype opts ATen.Float) g in
  let '(debug_attn_mask, g) :=
    at_empty [batch_size; num_heads; max_seqlen_q; max_seqlen_kv]
      (with_dtype opts ATen.Float) g in
  let '(philox_seed, g) := at_empty [] (dtype_options ATen.Long) g in
  let '(philox_offset, g) := at_empty [] (dtype_options ATen.Long) g in
  Returned ({| att_output := output; att_logsumexp := logsumexp;
               att_cum_seq_q := None; att_cum_seq_k := None;
               att_max_seqlen_q := max_seqlen_q;
               att_max_seqlen_kv := max_seqlen_kv;
               att_philox_seed := philox_seed;
               att_philox_offset := philox_offset;
               att_debug_attn_mask := debug_attn_mask |}, g).

(** *** Sequences of calls *)

(** The process after the given calls of add.Tensor, each with its own
    [self], [other] and [alpha]. *)
Definition after_adds (g : Globals) (calls : list (Tensor * Tensor * Z)) : Globals :=
  foldl (fun g '(self, other, alpha) => snd (custom_add_Tensor self other alpha g))
        g calls.

End open_registration.


(** ** torch/csrc/autograd/functions/accumulate_grad.cpp *)

Module autograd.

(** A defined [at::Tensor] handle: the identity of the Storage it shares,
    its shape and element type, and the reference count of the handle as
    the callee observes it. *)
Record Tensor := {
  storage : nat;
  sizes : list Z;
  dtype : ATen.ScalarType;
  use_count : Z
}.

Global Instance Tensor_eq_dec : EqDecision Tensor.
Proof. solve_decision. Defined.

(** [Variable] (here [AutogradVariable], the bare name being reserved) is
    [at::Tensor] seen by autograd: what [grad_fn()], [requires_grad()]
    and [mutable_grad()] give.  [None] is a null
    [grad_fn] and an undefined [.grad] respectively. *)
Record AutogradVariable := {
  v_sizes : list Z;
  v_dtype : ATen.ScalarType;
  grad_fn : option nat;
  requires_grad : bool;
  grad : option Tensor
}.

Inductive Error :=
| logic_error (what : string)
| runtime_error (what : string)
| shape_mismatch (expected got : list Z).

(** How a call of [apply] ends.  [Blocks]: the constructor of
    [std::lock_guard] does not come back, the mutex being held already. *)
Inductive Completion :=
| Returns (outputs : list (option Tensor))
| Throws (e : Error)
| Blocks.

(** A post-accumulate-grad hook is user code run on the leaf; it may
    replace the leaf's fields and write to storages. *)
Record PostAccumulateGradHook := {
  hook_id : nat;
  hook_call : AutogradVariable -> gmap nat (list Z) -> AutogradVariable * gmap nat (list Z)
}.

(** The calls [apply] makes, in order, as a ghost trace. *)
Inductive Event :=
| Lock
| Unlock
| Commit (grad_update : Tensor)
| Hook (id : nat) (arg : AutogradVariable) (mutex_held : bool).

(** The node.  [post_hooks] are the hooks of the base [Node] that the
    engine runs once the function is done (by identity only, [apply] does
    not run them); [mutex_] is [true] while the mutex is held. *)
Record AccumulateGrad := {
  sequence_nr : Z;
  input_metadata : list (list Z * ATen.ScalarType);
  variable : AutogradVariable;
  post_hooks : list nat;
  tensor_post_acc_grad_hooks : option PostAccumulateGradHook;
  mutex_ : bool
}.

(** The node together with the Storages it can reach and the trace. *)
Record State := {
  node : AccumulateGrad;
  heap : gmap nat (list Z);
  log : list Event
}.

(** AccumulateGrad sets sequence_nr to the max value so it's always called
    ASAP during backwards. *)
Definition mk_AccumulateGrad (variable_ : AutogradVariable) : AccumulateGrad :=
  {| sequence_nr := UINT64_MAX;
     input_metadata := [(v_sizes variable_, v_dtype variable_)];
     variable := variable_;
     post_hooks := [];
     tensor_post_acc_grad_hooks := None;
     mutex_ := false |}.

Definition with_grad (v : AutogradVariable) (g : option Tensor) : AutogradVariable :=
  {| v_sizes := v_sizes v; v_dtype := v_dtype v; grad_fn := grad_fn v;
     requires_grad := requires_grad v; grad := g |}.

Definition with_variable (n : AccumulateGrad) (v : AutogradVariable) : AccumulateGrad :=
  {| sequence_nr := sequence_nr n; input_metadata := input_metadata n;
     variable := v; post_hooks := post_hooks n;
     tensor_post_acc_grad_hooks := tensor_post_acc_grad_hooks n;
     mutex_ := mutex_ n |}.

Definition with_mutex (n : AccumulateGrad) (held : bool) : AccumulateGrad :=
  {| sequence_nr := sequence_nr n; input_metadata := input_metadata n;
     variable := variable n; post_hooks := post_hooks n;
     tensor_post_acc_grad_hooks := tensor_post_acc_grad_hooks n;
     mutex_ := held |}.

Definition with_heap (s : State) (h : gmap nat (list Z)) : State :=
  {| node := node s; heap := h; log := log s |}.

Definition emit (e : Event) (s : State) : State :=
  {| node := node s; heap := heap s; log := log s ++ [e] |}.

Definition contents (h : gmap nat (list Z)) (t : Tensor) : list Z :=
  default [] (h !! storage t).

(** [std::lock_guard<std::mutex> lock(mutex_)] and its destructor. *)
Definition lock (s : State) : State :=
  emit Lock {| node := with_mutex (node s) true; heap := heap s; log := log s |}.

Definition unlock (s : State) : State :=
  emit Unlock {| node := with_mutex (node s) false; heap := heap s; log := log s |}.

(** The lambda [[&grad](at::Tensor&& grad_update) { grad = std::move(grad_update); }]. *)
Definition update_grad (grad_update : Tensor) (s : State) : State :=
  emit (Commit grad_update)
    {| node := with_variable (node s) (with_grad (variable (node s)) (Some grad_update));
       heap := heap s; log := log s |}.

(** Modelled from the spec: [check_input_variables]
    (torch/csrc/autograd/functions/utils.h) is not among the sources.
    Exactly [args] gradient slots are expected, of which the first
    [required_args] must be populated. *)
Definition check_input_variables (name : string) (inputs : list (option Tensor))
    (args required_args : nat) : Outcome Error unit :=
  if negb (length inputs =? args)%nat
  then Threw (runtime_error (name ++ ": wrong number of arguments"))
  else if forallb (fun i => bool_decide (is_Some i)) (take required_args inputs)
  then Returned ()
  else Threw (runtime_error (name ++ ": expected a defined argument")).

(** Modelled from the spec: type promotion picks the wider, more precise
    of the two element types. *)
Definition precision (t : ATen.ScalarType) : nat :=
  match t with
  | ATen.Byte => 0 | ATen.Int => 1 | ATen.Long => 2
  | ATen.Half => 3 | ATen.Float => 4 | ATen.Double => 5
  end%nat.

Definition promote_types (a b : ATen.ScalarType) : ATen.ScalarType :=
  if (precision a <? precision b)%nat then b else a.

(** [at::Tensor::clone]: a new Storage with the same elements. *)
Definition clone (t : Tensor) (s : State) : Tensor * State :=
  let id := fresh (dom (heap s)) in
  ({| storage := id; sizes := sizes t; dtype := dtype t; use_count := 1 |},
   with_heap s (<[id := contents (heap s) t]> (heap s))).

(** Modelled from the spec: the template [accumulateGrad]
    (torch/csrc/autograd/functions/accumulate_grad.h) is not among the
    sources.  With an empty [.grad] the incoming gradient is cloned only if
    its reference count exceeds [num_expected_refs] and is stolen
    otherwise; with a [.grad] in place the incoming gradient is added to it
    elementwise, in place, under type promotion, and a shape mismatch is
    fatal.  The assignment goes through the [update_grad] callback, once. *)
Definition accumulateGrad (variable : AutogradVariable) (variable_grad : option Tensor)
    (new_grad : Tensor) (num_expected_refs : Z)
    (update_grad : Tensor -> State -> State) (s : State) : Outcome Error State :=
  match variable_grad with
  | None =>
      if use_count new_grad >? num_expected_refs
      then let '(copy, s') := clone new_grad s in Returned (update_grad copy s')
      else Returned (update_grad new_grad s)
  | Some g =>
      if bool_decide (sizes g = sizes new_grad)
      then
        let sum := zip_with Z.add (contents (heap s) g) (contents (heap s) new_grad) in
        Returned (update_grad
          {| storage := storage g; sizes := sizes g;
             dtype := promote_types (dtype g) (dtype new_grad);
             use_count := use_count g |}
          (with_heap s (<[storage g := sum]> (heap s))))
      else Threw (shape_mismatch (sizes g) (sizes new_grad))
  end.

(** [1 + !post_hooks().empty()] *)
Definition num_expected_refs (n : AccumulateGrad) : Z :=
  1 + Z.b2z (negb (bool_decide (post_hooks n = []))).

(** The call of the hook on [variable]. *)
Definition call_hook (h : PostAccumulateGradHook) (s : State) : State :=
  let '(v', heap') := hook_call h (variable (node s)) (heap s) in
  {| node := with_variable (node s) v'; heap := heap';
     log := log s ++ [Hook (hook_id h) (variable (node s)) (mutex_ (node s))] |}.

Definition run_tensor_post_acc_grad_hooks (s : State) : State :=
  match tensor_post_acc_grad_hooks (node s) with
  | Some hook => call_hook hook s
  | None => s
  end.

(** What [apply] throws at a leaf that has a producing function. *)
Definition moved_into_graph_interior : Error :=
  logic_error "leaf variable has been moved into the graph interior".

Definition apply (grads : list (option Tensor)) (s : State) : Completion * State :=
  match check_input_variables "AccumulateGrad" grads 1 0 with
  | Threw e => (Throws e, s)
  | Returned _ =>
      match default None (grads !! 0%nat) with
      | None => (Returns [], s)
      | Some new_grad =>
          if bool_decide (is_Some (grad_fn (variable (node s))))
          then (Throws moved_into_graph_interior, s)
          else if negb (requires_grad (variable (node s)))
          then (Returns [], s)
          else if mutex_ (node s) then (Blocks, s)
          else
            let s := lock s in
            match accumulateGrad (variable (node s)) (grad (variable (node s)))
                    new_grad (num_expected_refs (node s)) update_grad s with
            | Threw e => (Throws e, unlock s)
            | Returned s =>
                let s := run_tensor_post_acc_grad_hooks s in
                (Returns [], unlock s)
            end
      end
  end.

End autograd.


(** ** Concrete inputs *)

(** A heap whose fresh pages read zero. *)
Definition zero_pages : nat -> nat -> Z := fun _ _ => 0.

Definition custom_device : open_registration.Device :=
  {| open_registration.dev_type := ATen.kPrivateUse1;
     open_registration.dev_index := 0 |}.

Definition cpu_device : open_registration.Device :=
  {| open_registration.dev_type := ATen.kCPU;
     open_registration.dev_index := -1 |}.

(** A contiguous float vector of three elements over the whole of [block]. *)
Definition vector3 (d : open_registration.Device) (block : nat)
    : open_registration.Tensor :=
  {| open_registration.sizes := [3];
     open_registration.strides := [1];
     open_registration.storage_offset := 0;
     open_registration.scalar_type := ATen.Float;
     open_registration.device := d;
     open_registration.is_contiguous := true;
     open_registration.storage := block |}.

Definition ones_on_custom_device : open_registration.Tensor :=
  vector3 custom_device 0.

Definition twos_on_custom_device : open_registration.Tensor :=
  vector3 custom_device 1.

(** The process after [1,1,1] and [2,2,2] have been put on the custom
    device, in blocks 0 and 1. *)
Definition ones_and_twos : open_registration.Globals :=
  open_registration.with_heap (open_registration.initial zero_pages)
    {[ 0%nat := [1; 1; 1]; 1%nat := [2; 2; 2] ]}.

(** A CPU vector of three floats that is the head of a ten-cell block, as
    a slice [v[:3]] of a vector of ten is. *)
Definition head_of_ten : open_registration.Tensor := vector3 cpu_device 0.

(** A CPU vector of three floats taking every other cell of a block. *)
Definition every_other : open_registration.Tensor :=
  {| open_registration.sizes := [3];
     open_registration.strides := [2];
     open_registration.storage_offset := 0;
     open_registration.scalar_type := ATen.Float;
     open_registration.device := cpu_device;
     open_registration.is_contiguous := false;
     open_registration.storage := 0 |}.

(** Block 0 holds ten cells on the CPU side, block 1 three cells of the
    custom device. *)
Definition ten_and_three : open_registration.Globals :=
  open_registration.with_heap (open_registration.initial zero_pages)
    {[ 0%nat := [10; 11; 12; 13; 14; 15; 16; 17; 18; 19]; 1%nat := [0; 0; 0] ]}.

(** Three blocks of three cells: a CPU source, a custom-device tensor and
    a CPU tensor to read back into. *)
Definition three_vectors : open_registration.Globals :=
  open_registration.with_heap (open_registration.initial zero_pages)
    {[ 0%nat := [4; 5; 6]; 1%nat := [0; 0; 0]; 2%nat := [9; 9; 9] ]}.

(** The last two cells of a block of three, as a contiguous vector. *)
Definition tail2 (d : open_registration.Device) (block : nat)
    : open_registration.Tensor :=
  {| open_registration.sizes := [2];
     open_registration.strides := [1];
     open_registration.storage_offset := 1;
     open_registration.scalar_type := ATen.Float;
     open_registration.device := d;
     open_registration.is_contiguous := true;
     open_registration.storage := block |}.

(** A query, key or value of attention on the custom device. *)
Definition attention_input (size : list Z) (block : nat)
    : open_registration.Tensor :=
  {| open_registration.sizes := size;
     open_registration.strides := open_registration.contiguous_strides size;
     open_registration.storage_offset := 0;
     open_registration.scalar_type := ATen.Half;
     open_registration.device := custom_device;
     open_registration.is_contiguous := true;
     open_registration.storage := block |}.

(** A gradient of three ones in storage 7, held by the caller alone. *)
Definition grad_in : autograd.Tensor :=
  {| autograd.storage := 7; autograd.sizes := [3];
     autograd.dtype := ATen.Float; autograd.use_count := 1 |}.

Definition leaf : autograd.AutogradVariable :=
  {| autograd.v_sizes := [3]; autograd.v_dtype := ATen.Float;
     autograd.grad_fn := None; autograd.requires_grad := true;
     autograd.grad := None |}.

(** A variable that has a producing function and does not require
    gradients. *)
Definition interior : autograd.AutogradVariable :=
  {| autograd.v_sizes := [3]; autograd.v_dtype := ATen.Float;
     autograd.grad_fn := Some 0%nat; autograd.requires_grad := false;
     autograd.grad := None |}.

Definition state_of (n : autograd.AccumulateGrad) : autograd.State :=
  {| autograd.node := n;
     autograd.heap := {[ 7%nat := [1; 1; 1] ]};
     autograd.log := [] |}.

(** A leaf that does not require gradients and holds a gradient. *)
Definition not_requiring_grad : autograd.AutogradVariable :=
  {| autograd.v_sizes := [3]; autograd.v_dtype := ATen.Float;
     autograd.grad_fn := None; autograd.requires_grad := false;
     autograd.grad := Some grad_in |}.

(** A hook that leaves the leaf and the storages alone. *)
Definition observer : autograd.PostAccumulateGradHook :=
  {| autograd.hook_id := 0; autograd.hook_call := fun v h => (v, h) |}.

Definition with_hook (n : autograd.AccumulateGrad)
    (h : autograd.PostAccumulateGradHook) : autograd.AccumulateGrad :=
  {| autograd.sequence_nr := autograd.sequence_nr n;
     autograd.input_metadata := autograd.input_metadata n;
     autograd.variable := autograd.variable n;
     autograd.post_hooks := autograd.post_hooks n;
     autograd.tensor_post_acc_grad_hooks := Some h;
     autograd.mutex_ := autograd.mutex_ n |}.

Definition with_post_hooks (n : autograd.AccumulateGrad)
    (hs : list nat) : autograd.AccumulateGrad :=
  {| autograd.sequence_nr := autograd.sequence_nr n;
     autograd.input_metadata := autograd.input_metadata n;
     autograd.variable := autograd.variable n;
     autograd.post_hooks := hs;
     autograd.tensor_post_acc_grad_hooks := autograd.tensor_post_acc_grad_hooks n;
     autograd.mutex_ := autograd.mutex_ n |}.


(** * Properties *)

(** ** Deadlock detection switch *)

Lemma disable_detection_presence (environ : gmap string string) :
  c10_impl.disable_detection environ = true <->
  is_Some (environ !! "TORCH_DISABLE_DEADLOCK_DETECTION").
Proof.
  unfold c10_impl.disable_detection, c10_impl.getenv.
  destruct (environ !! "TORCH_DISABLE_DEADLOCK_DETECTION") as [v|].
  - split; [eauto | reflexivity].
  - split; [discriminate | intros [v Hv]; discriminate].
Qed.

(** C9: the switch is the mere presence of TORCH_DISABLE_DEADLOCK_DETECTION
    in the environment, whatever its value; while it is present every call
    of SetPythonGILHooks returns without installing anything and the stored
    hooks pointer is what it was. *)
Theorem SetPythonGILHooks_skipped_when_disabled
    (environ : gmap string string) (value : string)
    (hooks : option c10_impl.PythonGILHooks) (g : c10_impl.Globals) :
  environ !! "TORCH_DISABLE_DEADLOCK_DETECTION" = Some value ->
  c10_impl.disable_detection environ = true /\
  c10_impl.SetPythonGILHooks environ hooks g = Returned g.
Proof.
  intros Hset.
  assert (Hd : c10_impl.disable_detection environ = true).
  { apply disable_detection_presence. eauto. }
  split; [exact Hd |].
  unfold c10_impl.SetPythonGILHooks. rewrite Hd. reflexivity.
Qed.

(** The variable set to the empty string, a hook already installed and
    another one offered: the call that would otherwise trip the assertion
    is skipped. *)
Lemma SetPythonGILHooks_skipped_when_disabled_witness :
  let environ : gmap string string :=
    {[ "TORCH_DISABLE_DEADLOCK_DETECTION" := "" ]} in
  let installed := {| c10_impl.python_gil_hooks :=
                        Some {| c10_impl.hooks_check_python_gil := true |} |} in
  c10_impl.disable_detection environ = true /\
  c10_impl.SetPythonGILHooks environ
    (Some {| c10_impl.hooks_check_python_gil := false |}) installed
  = Returned installed.
Proof.
  intros environ installed.
  apply (SetPythonGILHooks_skipped_when_disabled environ "").
  vm_compute. reflexivity.
Defined.

(** Without the variable the same call trips the assertion: the switch
    does change what happens. *)
Example SetPythonGILHooks_enabled_asserts :
  c10_impl.SetPythonGILHooks ∅
    (Some {| c10_impl.hooks_check_python_gil := false |})
    {| c10_impl.python_gil_hooks :=
         Some {| c10_impl.hooks_check_python_gil := true |} |}
  = Threw (c10_impl.InternalAssert "!hooks || !python_gil_hooks").
Proof. reflexivity. Qed.

(** ** Default accelerator *)

(** C7: a registered PrivateUse1 backend is returned first whatever else is
    detected; otherwise the call fails as soon as a second built-in
    accelerator (CUDA, MTIA, XPU, HIP, MPS) is detected, and returns the
    only detected one when there is exactly one. *)
Theorem getAccelerator_at_most_one_builtin (ctx : ATen.Context) (checked : bool) :
  ATen.getAccelerator ctx checked = ATen.getAccelerator_spec ctx checked.
Proof.
  destruct ctx as [p c m x h s].
  destruct p, c, m, x, h, s, checked; reflexivity.
Qed.

Lemma getAccelerator_privateuse1_first (ctx : ATen.Context) (checked : bool) :
  ATen.is_privateuse1_backend_registered ctx = true ->
  ATen.getAccelerator ctx checked = Returned (Some ATen.kPrivateUse1).
Proof. intros H. unfold ATen.getAccelerator. rewrite H. reflexivity. Qed.

Lemma getAccelerator_fails_on_two (ctx : ATen.Context) (checked : bool) :
  ATen.is_privateuse1_backend_registered ctx = false ->
  (2 <= length (ATen.detected ctx))%nat ->
  returns (ATen.getAccelerator ctx checked) = false.
Proof.
  intros Hp Hlen. rewrite getAccelerator_at_most_one_builtin.
  unfold ATen.getAccelerator_spec. rewrite Hp.
  destruct (ATen.detected ctx) as [|d1 [|d2 rest]]; simpl in *;
    first [lia | reflexivity].
Qed.

Lemma getAccelerator_returns_the_only_one (ctx : ATen.Context) (checked : bool)
    (d : ATen.DeviceType) :
  ATen.is_privateuse1_backend_registered ctx = false ->
  ATen.getAccelerator ctx checked = Returned (Some d) ->
  ATen.detected ctx = [d].
Proof.
  intros Hp. rewrite getAccelerator_at_most_one_builtin.
  unfold ATen.getAccelerator_spec. rewrite Hp.
  destruct (ATen.detected ctx) as [|d1 [|d2 rest]]; [destruct checked | |];
    intros H; inversion H; reflexivity.
Qed.

Example getAccelerator_cuda_and_xpu :
  ATen.getAccelerator
    {| ATen.is_privateuse1_backend_registered := false; ATen.hasCUDA := true;
       ATen.hasMTIA := false; ATen.hasXPU := true; ATen.hasHIP := false;
       ATen.hasMPS := false |} false
  = Threw (ATen.Cannot_have_with_other_accelerators ATen.kXPU).
Proof. reflexivity. Qed.

Example getAccelerator_privateuse1_with_cuda_and_xpu :
  ATen.getAccelerator
    {| ATen.is_privateuse1_backend_registered := true; ATen.hasCUDA := true;
       ATen.hasMTIA := false; ATen.hasXPU := true; ATen.hasHIP := false;
       ATen.hasMPS := false |} true
  = Returned (Some ATen.kPrivateUse1).
Proof. reflexivity. Qed.

(** ** Open registration: generator factory *)

(** C6: into an empty slot the first registration of a generator factory
    succeeds; a second attempt fails with its own error, and the lookup
    still returns the factory registered first.  This holds of the macro
    for any two factories and of [register_generator_first] followed by
    [register_generator_second]. *)
Theorem generator_factory_registered_once
    (g : open_registration.Globals) (f1 f2 : Z -> open_registration.Generator) :
  open_registration.GetGeneratorPrivate g = None ->
  (exists g1,
     open_registration.REGISTER_GENERATOR_PRIVATEUSE1 f1 g = Returned g1 /\
     open_registration.REGISTER_GENERATOR_PRIVATEUSE1 f2 g1
       = Threw open_registration.Generator_already_registered /\
     open_registration.GetGeneratorPrivate g1 = Some f1) /\
  (exists g1,
     open_registration.register_generator_first g = Returned g1 /\
     open_registration.register_generator_second g1
       = Threw open_registration.Generator_already_registered /\
     open_registration.GetGeneratorPrivate g1
       = Some open_registration.make_generator_privateuse1).
Proof.
  intros Hempty.
  unfold open_registration.GetGeneratorPrivate in Hempty.
  unfold open_registration.register_generator_first,
    open_registration.register_generator_second,
    open_registration.REGISTER_GENERATOR_PRIVATEUSE1.
  rewrite Hempty.
  split; eexists; (split; [reflexivity |]); simpl; split; reflexivity.
Qed.

Lemma generator_factory_registered_once_witness :
  let g := open_registration.initial zero_pages in
  let f1 := open_registration.make_generator_privateuse1 in
  let f2 := fun i => open_registration.make_generator_privateuse1 (i + 1) in
  (exists g1,
     open_registration.REGISTER_GENERATOR_PRIVATEUSE1 f1 g = Returned g1 /\
     open_registration.REGISTER_GENERATOR_PRIVATEUSE1 f2 g1
       = Threw open_registration.Generator_already_registered /\
     open_registration.GetGeneratorPrivate g1 = Some f1) /\
  (exists g1,
     open_registration.register_generator_first g = Returned g1 /\
     open_registration.register_generator_second g1
       = Threw open_registration.Generator_already_registered /\
     open_registration.GetGeneratorPrivate g1
       = Some open_registration.make_generator_privateuse1).
Proof.
  intros g f1 f2.
  apply (generator_factory_registered_once g f1 f2).
  reflexivity.
Defined.

(** ** Open registration: the custom add kernel *)

Lemma dispatch_add_Tensor :
  open_registration.dispatch_PrivateUse1 "add.Tensor"
  = Returned open_registration.custom_add_Tensor_.
Proof. vm_compute. reflexivity. Qed.

Lemma dispatch_sub_Tensor :
  open_registration.dispatch_PrivateUse1 "sub.Tensor"
  = Returned open_registration.boxed_custom_cpu_fallback_.
Proof. vm_compute. reflexivity. Qed.

Lemma call_add_Tensor_is_custom (self other : open_registration.Tensor)
    (alpha : Z) (g : open_registration.Globals) :
  open_registration.call_add_Tensor self other alpha g
  = Returned (open_registration.custom_add_Tensor self other alpha g).
Proof.
  unfold open_registration.call_add_Tensor.
  rewrite dispatch_add_Tensor. reflexivity.
Qed.

Example ones_and_twos_hold_the_operands :
  open_registration.elements (open_registration.heap ones_and_twos)
    ones_on_custom_device = [1; 1; 1] /\
  open_registration.elements (open_registration.heap ones_and_twos)
    twos_on_custom_device = [2; 2; 2].
Proof. vm_compute. split; reflexivity. Qed.

(** C5, as stated, fails: on a heap whose fresh pages read zero, adding
    [2,2,2] to [1,1,1] through the custom kernel gives [0,0,0], both the
    first and the second time. *)
Lemma custom_add_Tensor_does_not_add :
  exists r1 g1 r2 g2,
    open_registration.call_add_Tensor ones_on_custom_device
      twos_on_custom_device 1 ones_and_twos = Returned (r1, g1) /\
    open_registration.call_add_Tensor ones_on_custom_device
      twos_on_custom_device 1 g1 = Returned (r2, g2) /\
    open_registration.elements (open_registration.heap g1) r1 = [0; 0; 0] /\
    open_registration.elements (open_registration.heap g2) r2 = [0; 0; 0] /\
    open_registration.elements (open_registration.heap g1) r1 <> [3; 3; 3] /\
    open_registration.elements (open_registration.heap g2) r2 <> [3; 3; 3].
Proof.
  pose (c1 := open_registration.custom_add_Tensor ones_on_custom_device
                twos_on_custom_device 1 ones_and_twos).
  pose (c2 := open_registration.custom_add_Tensor ones_on_custom_device
                twos_on_custom_device 1 (snd c1)).
  assert (H1 : open_registration.elements (open_registration.heap (snd c1)) (fst c1)
               = [0; 0; 0]) by (vm_compute; reflexivity).
  assert (H2 : open_registration.elements (open_registration.heap (snd c2)) (fst c2)
               = [0; 0; 0]) by (vm_compute; reflexivity).
  exists (fst c1), (snd c1), (fst c2), (snd c2).
  rewrite !call_add_Tensor_is_custom.
  split; [reflexivity |]. split; [reflexivity |].
  split; [exact H1 |]. split; [exact H2 |].
  split; [rewrite H1 | rewrite H2]; discriminate.
Qed.

(** C5, amended: a call of add.Tensor with [self] on the custom device is
    routed to [custom_add_Tensor]; the result has the shape, element type
    and device type of [self] and sits in a block of its own that holds
    whatever the freshly allocated memory holds, independently of the
    operands' elements; the call counter goes up by one and
    [custom_add_called] then reports a new call. *)
Theorem custom_add_Tensor_routed_and_counted
    (self other : open_registration.Tensor) (alpha : Z)
    (g : open_registration.Globals) :
  open_registration.dev_type (open_registration.device self) = ATen.kPrivateUse1 ->
  0 <= open_registration.last_saved_value g <= open_registration.add_counter g ->
  open_registration.add_counter g < UINT64_MAX ->
  exists r g',
    open_registration.call_add_Tensor self other alpha g = Returned (r, g') /\
    (r, g') = open_registration.custom_add_Tensor self other alpha g /\
    open_registration.sizes r = open_registration.sizes self /\
    open_registration.scalar_type r = open_registration.scalar_type self /\
    open_registration.dev_type (open_registration.device r) = ATen.kPrivateUse1 /\
    (open_registration.storage r ∉ dom (open_registration.heap g)) /\
    open_registration.heap g'
      = <[open_registration.storage r :=
            map (open_registration.raw_memory g (open_registration.storage r))
              (seq 0 (Z.to_nat (open_registration.numel (open_registration.sizes self))))]>
          (open_registration.heap g) /\
    open_registration.add_counter g' = open_registration.add_counter g + 1 /\
    fst (open_registration.custom_add_called g') = true.
Proof.
  intros Hdev Hsaved Hmax.
  destruct self as [sz st off ty [dt di] ct blk]; simpl in Hdev; subst dt.
  eexists _, _. rewrite call_add_Tensor_is_custom.
  split; [reflexivity |]. split; [reflexivity |].
  cbn -[wrap64 Z.gtb fresh].
  assert (Hw : wrap64 (open_registration.add_counter g + 1)
               = open_registration.add_counter g + 1).
  { unfold wrap64, UINT64_MAX in *. apply Z.mod_small. lia. }
  rewrite Hw. repeat split; try reflexivity.
  - apply is_fresh.
  - unfold open_registration.custom_add_called; cbn -[wrap64 Z.gtb fresh].
    rewrite Hw.
    destruct (Z.gtb_spec (open_registration.add_counter g + 1)
                (open_registration.last_saved_value g)) as [_|Hle];
      [reflexivity | lia].
Qed.

Lemma custom_add_Tensor_routed_and_counted_witness :
  exists r g',
    open_registration.call_add_Tensor ones_on_custom_device
      twos_on_custom_device 1 ones_and_twos = Returned (r, g') /\
    open_registration.sizes r = [3] /\
    open_registration.add_counter g' = 1 /\
    fst (open_registration.custom_add_called g') = true.
Proof.
  destruct (custom_add_Tensor_routed_and_counted ones_on_custom_device
              twos_on_custom_device 1 ones_and_twos)
    as (r & g' & Hcall & _ & Hsz & _ & _ & _ & _ & Hcnt & Hcalled).
  - reflexivity.
  - simpl. lia.
  - reflexivity.
  - exists r, g'. repeat split; assumption.
Defined.

(** ** Open registration: copy to and from the custom device *)

Lemma memcpy_whole_block (dst src : nat) (d s : list Z) (h : gmap nat (list Z)) :
  h !! dst = Some d -> h !! src = Some s ->
  (length s <= length d)%nat ->
  open_registration.memcpy dst src (length s) h
  = Some (<[dst := s ++ drop (length s) d]> h).
Proof.
  intros Hd Hs Hlen. unfold open_registration.memcpy.
  rewrite Hd, Hs.
  rewrite (proj2 (Nat.leb_le _ _) Hlen), Nat.leb_refl, firstn_all.
  reflexivity.
Qed.

Lemma memcpy_overflow (dst src : nat) (d s : list Z) (h : gmap nat (list Z)) :
  h !! dst = Some d -> h !! src = Some s -> (length d < length s)%nat ->
  open_registration.memcpy dst src (length s) h = None.
Proof.
  intros Hd Hs Hlen. unfold open_registration.memcpy. rewrite Hd, Hs.
  rewrite (proj2 (Nat.leb_gt _ _) Hlen). reflexivity.
Qed.

(** Splits the four preconditions and takes [custom__copy_from] past its
    checks and into the branch [Hcontig] selects. *)
Ltac pass_checks Hpre Hcontig :=
  let Hty := fresh "Hty" in
  let Hsz := fresh "Hsz" in
  let Hself := fresh "Hself" in
  let Hdst := fresh "Hdst" in
  apply andb_prop in Hpre as [Hpre Hty];
  apply andb_prop in Hpre as [Hpre Hsz];
  apply andb_prop in Hpre as [Hself Hdst];
  rewrite Hself, Hdst, Hsz, Hty, Hcontig; simpl.

(** C10: the code at the input where it departs from the claim.  Both
    tensors are contiguous float vectors of three elements, one on the CPU
    and one on the custom device, so every check passes; but the source is
    the head of a block of ten cells, the raw copy moves the whole source
    storage into a destination block of three cells, and the call does not
    come back with the destination: it writes past the end of the block. *)
Lemma custom__copy_from_overruns_destination :
  open_registration.copy_preconditions head_of_ten (vector3 custom_device 1) = true /\
  open_registration.is_contiguous head_of_ten = true /\
  open_registration.is_contiguous (vector3 custom_device 1) = true /\
  open_registration.custom__copy_from open_registration.strided_copy
    head_of_ten (vector3 custom_device 1) false ten_and_three = None.
Proof. vm_compute. repeat split. Qed.

(** What [custom__copy_from] does where it is defined: it throws unless
    both tensors are on the CPU or the PrivateUse1 device and have equal
    sizes and equal scalar types; past the checks, when both are
    contiguous and the destination's storage is at least as long as the
    source's, it copies the whole storage of the source to the start of
    the storage of the destination and returns the destination; when they
    are not both contiguous it makes the copy between CPU tensors that
    alias the storages of the two tensors and returns the destination. *)
Theorem custom__copy_from_checks_then_copies
    (copy_ : open_registration.Tensor -> open_registration.Tensor ->
             gmap nat (list Z) -> gmap nat (list Z))
    (self dst : open_registration.Tensor) (non_blocking : bool)
    (g : open_registration.Globals) :
  (open_registration.copy_preconditions self dst = false ->
   exists e, open_registration.custom__copy_from copy_ self dst non_blocking g
             = Some (Threw e)) /\
  (open_registration.copy_preconditions self dst = true ->
   open_registration.is_contiguous self && open_registration.is_contiguous dst = true ->
   forall d s,
     open_registration.heap g !! open_registration.storage dst = Some d ->
     open_registration.heap g !! open_registration.storage self = Some s ->
     (length s <= length d)%nat ->
     open_registration.custom__copy_from copy_ self dst non_blocking g
     = Some (Returned (dst, open_registration.with_heap g
               (<[open_registration.storage dst := s ++ drop (length s) d]>
                  (open_registration.heap g))))) /\
  (open_registration.copy_preconditions self dst = true ->
   open_registration.is_contiguous self && open_registration.is_contiguous dst = false ->
   Forall (fun n => 0 <= n) (open_registration.sizes self) ->
   exists cpu_self cpu_dst,
     open_registration.convert_to_cpu_tensor self = Returned cpu_self /\
     open_registration.convert_to_cpu_tensor dst = Returned cpu_dst /\
     open_registration.is_cpu cpu_self = true /\
     open_registration.is_cpu cpu_dst = true /\
     open_registration.storage cpu_self = open_registration.storage self /\
     open_registration.storage cpu_dst = open_registration.storage dst /\
     open_registration.custom__copy_from copy_ self dst non_blocking g
     = Some (Returned (dst, open_registration.with_heap g
               (copy_ cpu_dst cpu_self (open_registration.heap g))))).
Proof.
  unfold open_registration.copy_preconditions, open_registration.custom__copy_from.
  split; [| split].
  - intros Hpre.
    destruct (open_registration.is_cpu self || open_registration.is_privateuseone self);
      [| eauto].
    destruct (open_registration.is_cpu dst || open_registration.is_privateuseone dst);
      [| eauto].
    destruct (bool_decide (open_registration.sizes self = open_registration.sizes dst));
      [| eauto].
    destruct (bool_decide (open_registration.scalar_type self
                           = open_registration.scalar_type dst));
      [discriminate Hpre | eauto].
  - intros Hpre Hcontig d s Hd Hs Hlen.
    pass_checks Hpre Hcontig.
    unfold open_registration.storage_cells. rewrite Hs. simpl.
    rewrite (memcpy_whole_block _ _ d s) by assumption. reflexivity.
  - intros Hpre Hcontig Hnonneg.
    pass_checks Hpre Hcontig.
    apply bool_decide_eq_true_1 in Hsz.
    assert (Hck : forall t, open_registration.sizes t = open_registration.sizes self ->
                  open_registration.check_size_nonnegative (open_registration.sizes t)
                  = Returned ()).
    { intros t ->. unfold open_registration.check_size_nonnegative.
      rewrite (proj2 (forallb_forall _ _)); [reflexivity |].
      intros n Hn. apply Z.leb_le.
      rewrite Forall_forall in Hnonneg. apply Hnonneg, list_elem_of_In, Hn. }
    unfold open_registration.convert_to_cpu_tensor,
      open_registration.unsafe_create_cpu_tensor_from_dummy_tensor.
    destruct (open_registration.is_privateuseone self) eqn:Hps;
      destruct (open_registration.is_privateuseone dst) eqn:Hpd;
      rewrite ?orb_false_r in Hself; rewrite ?orb_false_r in Hdst; simpl;
      rewrite ?Hck by (reflexivity || (symmetry; exact Hsz)); simpl;
      eexists _, _; repeat split; assumption.
Qed.

(** Three floats from a CPU block of three into a custom-device block of
    three: contiguous, and the raw copy fits. *)
Lemma custom__copy_from_checks_then_copies_witness :
  open_registration.custom__copy_from open_registration.strided_copy
    (vector3 cpu_device 1) (vector3 custom_device 0) false ones_and_twos
  = Some (Returned (vector3 custom_device 0,
            open_registration.with_heap ones_and_twos
              (<[0%nat := [2; 2; 2] ++ drop (length [2; 2; 2]) [1; 1; 1]]>
                 (open_registration.heap ones_and_twos)))).
Proof.
  apply (custom__copy_from_checks_then_copies open_registration.strided_copy
           (vector3 cpu_device 1) (vector3 custom_device 0) false ones_and_twos).
  - reflexivity.
  - reflexivity.
  - reflexivity.
  - reflexivity.
  - simpl. lia.
Defined.

(** A strided CPU source: the copy goes through the CPU views and picks
    every other cell. *)
Example custom__copy_from_strided :
  exists g',
    open_registration.custom__copy_from open_registration.strided_copy
      every_other (vector3 custom_device 1) false ten_and_three
    = Some (Returned (vector3 custom_device 1, g')) /\
    open_registration.elements (open_registration.heap g') (vector3 custom_device 1)
    = [10; 12; 14].
Proof. eexists. split; vm_compute; reflexivity. Qed.

Example custom__copy_from_rejects_other_devices :
  open_registration.custom__copy_from open_registration.strided_copy
    (vector3 {| open_registration.dev_type := ATen.kCUDA;
                open_registration.dev_index := 0 |} 0)
    (vector3 custom_device 1) false ones_and_twos
  = Some (Threw (open_registration.Check_failed
            "Dummy test only allows copy from cpu -> dummy device.")).
Proof. reflexivity. Qed.

(** ** AccumulateGrad *)

(** What [apply] does up to the first check that can end the call. *)
Lemma apply_one_defined (g : autograd.Tensor) (s : autograd.State) :
  autograd.apply [Some g] s =
  if bool_decide (is_Some (autograd.grad_fn (autograd.variable (autograd.node s))))
  then (autograd.Throws autograd.moved_into_graph_interior, s)
  else if negb (autograd.requires_grad (autograd.variable (autograd.node s)))
  then (autograd.Returns [], s)
  else if autograd.mutex_ (autograd.node s) then (autograd.Blocks, s)
  else
    match autograd.accumulateGrad
            (autograd.variable (autograd.node (autograd.lock s)))
            (autograd.grad (autograd.variable (autograd.node (autograd.lock s))))
            g (autograd.num_expected_refs (autograd.node (autograd.lock s)))
            autograd.update_grad (autograd.lock s) with
    | Threw e => (autograd.Throws e, autograd.unlock (autograd.lock s))
    | Returned s' =>
        (autograd.Returns [],
         autograd.unlock (autograd.run_tensor_post_acc_grad_hooks s'))
    end.
Proof. reflexivity. Qed.

Lemma apply_one_undefined (s : autograd.State) :
  autograd.apply [None] s = (autograd.Returns [], s).
Proof. reflexivity. Qed.

(** C2: when the single incoming gradient slot is undefined, or when the
    leaf, a variable without a producing function, does not require
    gradients, [apply] returns the empty list and the whole state, [.grad]
    included, is what it was; neither is an error. *)
Theorem apply_noop_without_gradient_or_requires_grad
    (g : option autograd.Tensor) (s : autograd.State) :
  g = None \/
  (autograd.grad_fn (autograd.variable (autograd.node s)) = None /\
   autograd.requires_grad (autograd.variable (autograd.node s)) = false) ->
  autograd.apply [g] s = (autograd.Returns [], s).
Proof.
  intros [-> | [Hfn Hreq]]; [apply apply_one_undefined |].
  destruct g as [g|]; [| apply apply_one_undefined].
  rewrite apply_one_defined, Hfn, Hreq. reflexivity.
Qed.

Lemma apply_noop_without_gradient_or_requires_grad_witness :
  autograd.apply [Some grad_in] (state_of (autograd.mk_AccumulateGrad not_requiring_grad))
  = (autograd.Returns [], state_of (autograd.mk_AccumulateGrad not_requiring_grad)).
Proof.
  apply apply_noop_without_gradient_or_requires_grad.
  right. split; reflexivity.
Defined.

(** C3: with a defined incoming gradient and a leaf that has a producing
    function, [apply] throws, and the state it throws from is the state it
    was called in: nothing was locked, committed or written. *)
Theorem apply_throws_on_producing_function
    (g : autograd.Tensor) (s : autograd.State) (fn : nat) :
  autograd.grad_fn (autograd.variable (autograd.node s)) = Some fn ->
  autograd.apply [Some g] s = (autograd.Throws autograd.moved_into_graph_interior, s).
Proof.
  intros Hfn. rewrite apply_one_defined, Hfn. reflexivity.
Qed.

Lemma apply_throws_on_producing_function_witness :
  autograd.apply [Some grad_in] (state_of (autograd.mk_AccumulateGrad interior))
  = (autograd.Throws autograd.moved_into_graph_interior,
     state_of (autograd.mk_AccumulateGrad interior)).
Proof.
  apply (apply_throws_on_producing_function grad_in _ 0%nat).
  reflexivity.
Defined.

Lemma num_expected_refs_cases (n : autograd.AccumulateGrad) :
  autograd.num_expected_refs n
  = if bool_decide (autograd.post_hooks n = []) then 1 else 2.
Proof.
  unfold autograd.num_expected_refs.
  destruct (bool_decide (autograd.post_hooks n = [])); reflexivity.
Qed.

(** The threshold looks at the hooks of the node only: the hook that runs
    after accumulation does not enter it. *)
Lemma num_expected_refs_ignores_tensor_hook (n : autograd.AccumulateGrad)
    (h : autograd.PostAccumulateGradHook) :
  autograd.num_expected_refs (with_hook n h) = autograd.num_expected_refs n.
Proof. reflexivity. Qed.

Lemma clone_fresh (t : autograd.Tensor) (s : autograd.State) :
  autograd.storage (fst (autograd.clone t s)) ∉ dom (autograd.heap s).
Proof. simpl. apply is_fresh. Qed.

(** C1, as stated, fails: with a post-accumulation hook registered for the
    leaf and no post hook on the node, the threshold is 1, not 2, and a
    gradient held twice is not stolen: .grad ends up in a storage of its
    own, 8, not in the gradient's storage 7. *)
Lemma post_accumulation_hook_does_not_raise_the_threshold :
  let n := with_hook (autograd.mk_AccumulateGrad leaf) observer in
  let g := {| autograd.storage := 7; autograd.sizes := [3];
              autograd.dtype := ATen.Float; autograd.use_count := 2 |} in
  autograd.tensor_post_acc_grad_hooks n = Some observer /\
  autograd.num_expected_refs n = 1 /\
  autograd.storage <$>
    autograd.grad (autograd.variable (autograd.node
      (snd (autograd.apply [Some g] (state_of n))))) = Some 8%nat /\
  autograd.storage <$>
    autograd.grad (autograd.variable (autograd.node
      (snd (autograd.apply [Some g] (state_of n))))) <> Some (autograd.storage g).
Proof. vm_compute. repeat split. discriminate. Qed.

(** C1, amended: with an empty .grad, the threshold is 1, or 2 when the
    node has post hooks of its own (the hooks of [post_hooks()]; the hook
    called after accumulation is not counted); an incoming gradient whose
    reference count is at or below it is committed as it is, so that .grad
    shares its storage and no storage is written, and one whose reference
    count exceeds it is committed as a copy in a storage that did not exist
    before. *)
Theorem apply_clones_only_above_expected_refs
    (g : autograd.Tensor) (s : autograd.State) :
  autograd.grad (autograd.variable (autograd.node s)) = None ->
  autograd.grad_fn (autograd.variable (autograd.node s)) = None ->
  autograd.requires_grad (autograd.variable (autograd.node s)) = true ->
  autograd.mutex_ (autograd.node s) = false ->
  autograd.num_expected_refs (autograd.node s)
    = (if bool_decide (autograd.post_hooks (autograd.node s) = []) then 1 else 2) /\
  exists t hp,
    autograd.apply [Some g] s
      = (autograd.Returns [],
         autograd.unlock (autograd.run_tensor_post_acc_grad_hooks
           (autograd.update_grad t (autograd.with_heap (autograd.lock s) hp)))) /\
    (autograd.tensor_post_acc_grad_hooks (autograd.node s) = None ->
     autograd.grad (autograd.variable (autograd.node
       (snd (autograd.apply [Some g] s)))) = Some t) /\
    (autograd.use_count g <= autograd.num_expected_refs (autograd.node s) ->
     t = g /\ hp = autograd.heap s) /\
    (autograd.num_expected_refs (autograd.node s) < autograd.use_count g ->
     (autograd.storage t ∉ dom (autograd.heap s)) /\
     autograd.sizes t = autograd.sizes g /\
     autograd.dtype t = autograd.dtype g /\
     hp = <[autograd.storage t := autograd.contents (autograd.heap s) g]>
            (autograd.heap s)).
Proof.
  intros Hgrad Hfn Hreq Hmutex.
  split; [apply num_expected_refs_cases |].
  rewrite apply_one_defined, Hfn, Hreq, Hmutex. simpl.
  rewrite Hgrad.
  change (autograd.num_expected_refs
            (autograd.with_mutex (autograd.node s) true))
    with (autograd.num_expected_refs (autograd.node s)).
  unfold autograd.accumulateGrad.
  destruct (Z.gtb_spec (autograd.use_count g)
              (autograd.num_expected_refs (autograd.node s))) as [Hgt | Hle].
  - exists (fst (autograd.clone g (autograd.lock s))),
      (<[fresh (dom (autograd.heap s)) := autograd.contents (autograd.heap s) g]>
         (autograd.heap s)).
    split; [reflexivity |].
    split.
    { intros Hnone. unfold autograd.run_tensor_post_acc_grad_hooks.
      simpl. rewrite Hnone. reflexivity. }
    split; [lia |].
    intros _. repeat split. simpl. apply is_fresh.
  - exists g, (autograd.heap s).
    split; [reflexivity |].
    split.
    { intros Hnone. unfold autograd.run_tensor_post_acc_grad_hooks.
      simpl. rewrite Hnone. reflexivity. }
    split; [intros _; split; reflexivity | lia].
Qed.

(** The gradient is held at the threshold by a node with a post hook:
    stolen; .grad ends up in the caller's storage 7. *)
Lemma apply_clones_only_above_expected_refs_witness :
  let s := state_of (with_post_hooks (autograd.mk_AccumulateGrad leaf) [4%nat]) in
  let g := {| autograd.storage := 7; autograd.sizes := [3];
              autograd.dtype := ATen.Float; autograd.use_count := 2 |} in
  autograd.num_expected_refs (autograd.node s) = 2 /\
  autograd.grad (autograd.variable (autograd.node (snd (autograd.apply [Some g] s))))
    = Some g /\
  autograd.heap (snd (autograd.apply [Some g] s)) = autograd.heap s.
Proof.
  intros s g.
  destruct (apply_clones_only_above_expected_refs g s)
    as (Hn & t & hp & Happly & Hfinal & Hsteal & _);
    try reflexivity.
  destruct Hsteal as [-> ->]; [rewrite Hn; simpl; lia |].
  split; [exact Hn |].
  split; [apply Hfinal; reflexivity |].
  rewrite Happly. reflexivity.
Defined.

Example apply_clones_above_threshold :
  let s := state_of (autograd.mk_AccumulateGrad leaf) in
  let g := {| autograd.storage := 7; autograd.sizes := [3];
              autograd.dtype := ATen.Float; autograd.use_count := 2 |} in
  autograd.storage <$>
    autograd.grad (autograd.variable (autograd.node (snd (autograd.apply [Some g] s))))
    = Some 8%nat /\
  autograd.heap (snd (autograd.apply [Some g] s)) !! 8%nat = Some [1; 1; 1].
Proof. vm_compute. split; reflexivity. Qed.

(** The merge of lines 45 to 58 goes through unless the shapes differ, and
    it commits exactly once. *)
Lemma accumulateGrad_commits (v : autograd.AutogradVariable)
    (g : autograd.Tensor) (n : Z) (s : autograd.State) :
  (forall g0, autograd.grad (autograd.variable (autograd.node s)) = Some g0 ->
              autograd.sizes g0 = autograd.sizes g) ->
  exists t hp,
    autograd.accumulateGrad v
      (autograd.grad (autograd.variable (autograd.node s))) g n
      autograd.update_grad s
    = Returned (autograd.update_grad t (autograd.with_heap s hp)).
Proof.
  intros Hshape. unfold autograd.accumulateGrad.
  destruct (autograd.grad (autograd.variable (autograd.node s))) as [g0|].
  - rewrite bool_decide_eq_true_2 by (apply Hshape; reflexivity).
    eexists _, _. reflexivity.
  - destruct (autograd.use_count g >? n).
    + eexists _, _. reflexivity.
    + exists g, (autograd.heap s). destruct s; reflexivity.
Qed.

(** C4, as stated, fails: the hook is called while the mutex is held.  The
    trace of a first write with a hook registered has the hook between
    [Lock] and [Unlock], and the hook finds the mutex held. *)
Lemma hook_runs_inside_lock_window :
  autograd.log (snd (autograd.apply [Some grad_in]
    (state_of (with_hook (autograd.mk_AccumulateGrad leaf) observer))))
  = [autograd.Lock;
     autograd.Commit grad_in;
     autograd.Hook 0 (autograd.with_grad leaf (Some grad_in)) true;
     autograd.Unlock].
Proof. reflexivity. Qed.

(** C4, amended: once the merge has been committed, the registered hook is
    called synchronously on the leaf with its updated .grad, after the
    commit and before [apply] returns, while the mutex of the node is
    still held; the mutex is released only after the hook has come back. *)
Theorem hook_runs_after_commit_before_unlock
    (g : autograd.Tensor) (s : autograd.State)
    (h : autograd.PostAccumulateGradHook) :
  autograd.grad_fn (autograd.variable (autograd.node s)) = None ->
  autograd.requires_grad (autograd.variable (autograd.node s)) = true ->
  autograd.mutex_ (autograd.node s) = false ->
  autograd.tensor_post_acc_grad_hooks (autograd.node s) = Some h ->
  (forall g0, autograd.grad (autograd.variable (autograd.node s)) = Some g0 ->
              autograd.sizes g0 = autograd.sizes g) ->
  exists t hp,
    let updated := autograd.with_grad (autograd.variable (autograd.node s)) (Some t) in
    let after := snd (autograd.apply [Some g] s) in
    fst (autograd.apply [Some g] s) = autograd.Returns [] /\
    autograd.log after
      = autograd.log s ++
        [autograd.Lock; autograd.Commit t;
         autograd.Hook (autograd.hook_id h) updated true; autograd.Unlock] /\
    autograd.variable (autograd.node after) = fst (autograd.hook_call h updated hp) /\
    autograd.heap after = snd (autograd.hook_call h updated hp) /\
    autograd.mutex_ (autograd.node after) = false.
Proof.
  intros Hfn Hreq Hmutex Hhook Hshape.
  rewrite apply_one_defined, Hfn, Hreq, Hmutex. simpl negb. cbv iota.
  destruct (accumulateGrad_commits
              (autograd.variable (autograd.node (autograd.lock s))) g
              (autograd.num_expected_refs (autograd.node (autograd.lock s)))
              (autograd.lock s) Hshape) as (t & hp & Hmerge).
  rewrite Hmerge. exists t, hp.
  unfold autograd.run_tensor_post_acc_grad_hooks. simpl.
  rewrite Hhook. unfold autograd.call_hook. simpl.
  destruct (autograd.hook_call h
              (autograd.with_grad (autograd.variable (autograd.node s)) (Some t)) hp)
    as [v' heap'] eqn:Hcall.
  simpl. repeat split.
  rewrite <- !app_assoc. reflexivity.
Qed.

Lemma hook_runs_after_commit_before_unlock_witness :
  let s := state_of (with_hook (autograd.mk_AccumulateGrad leaf) observer) in
  exists t,
    fst (autograd.apply [Some grad_in] s) = autograd.Returns [] /\
    autograd.log (snd (autograd.apply [Some grad_in] s))
      = [autograd.Lock; autograd.Commit t;
         autograd.Hook 0 (autograd.with_grad leaf (Some t)) true;
         autograd.Unlock].
Proof.
  intros s.
  destruct (hook_runs_after_commit_before_unlock grad_in s observer)
    as (t & hp & Hret & Hlog & _); try reflexivity.
  - intros g0 Hg0. discriminate Hg0.
  - exists t. split; [exact Hret | exact Hlog].
Defined.

(** ** Construction of the node *)

Lemma mk_AccumulateGrad_sequence_nr (v : autograd.AutogradVariable) :
  autograd.sequence_nr (autograd.mk_AccumulateGrad v) = UINT64_MAX /\
  is_uint64 (autograd.sequence_nr (autograd.mk_AccumulateGrad v)) /\
  forall z, is_uint64 z -> z <= autograd.sequence_nr (autograd.mk_AccumulateGrad v).
Proof.
  split; [reflexivity |]. split.
  - change (0 <= UINT64_MAX <= UINT64_MAX). unfold UINT64_MAX. lia.
  - intros z [_ Hz]. exact Hz.
Qed.

(** * Further properties *)

(** ** Installing and clearing the GIL hooks *)

(** X1: with detection enabled, clearing the hooks always succeeds and
    leaves [check_python_gil] answering false, and installing hooks right
    after always succeeds and makes [check_python_gil] answer what the
    installed hooks answer. *)
Theorem SetPythonGILHooks_clear_then_install
    (environ : gmap string string) (g : c10_impl.Globals)
    (h : c10_impl.PythonGILHooks) :
  environ !! "TORCH_DISABLE_DEADLOCK_DETECTION" = None ->
  exists g1 g2,
    c10_impl.SetPythonGILHooks environ None g = Returned g1 /\
    c10_impl.check_python_gil g1 = false /\
    c10_impl.SetPythonGILHooks environ (Some h) g1 = Returned g2 /\
    c10_impl.check_python_gil g2 = c10_impl.hooks_check_python_gil h.
Proof.
  intros Hunset.
  unfold c10_impl.SetPythonGILHooks, c10_impl.disable_detection, c10_impl.getenv.
  rewrite Hunset. simpl.
  eexists _, _. repeat split.
Qed.

Lemma SetPythonGILHooks_clear_then_install_witness :
  exists g1 g2,
    c10_impl.SetPythonGILHooks ∅ None
      {| c10_impl.python_gil_hooks :=
           Some {| c10_impl.hooks_check_python_gil := false |} |} = Returned g1 /\
    c10_impl.check_python_gil g1 = false /\
    c10_impl.SetPythonGILHooks ∅
      (Some {| c10_impl.hooks_check_python_gil := true |}) g1 = Returned g2 /\
    c10_impl.check_python_gil g2 = true.
Proof.
  apply (SetPythonGILHooks_clear_then_install ∅ _
           {| c10_impl.hooks_check_python_gil := true |}).
  reflexivity.
Defined.

(** X2: with detection enabled, hooks are never replaced silently: once an
    installation has succeeded, installing other hooks without clearing
    first trips the assertion, and [check_python_gil] keeps answering what
    the first hooks answer. *)
Theorem SetPythonGILHooks_never_replaces
    (environ : gmap string string) (g g' : c10_impl.Globals)
    (h h' : c10_impl.PythonGILHooks) :
  environ !! "TORCH_DISABLE_DEADLOCK_DETECTION" = None ->
  c10_impl.SetPythonGILHooks environ (Some h) g = Returned g' ->
  c10_impl.SetPythonGILHooks environ (Some h') g'
    = Threw (c10_impl.InternalAssert "!hooks || !python_gil_hooks") /\
  c10_impl.check_python_gil (c10_impl.after_SetPythonGILHooks environ g' (Some h'))
    = c10_impl.hooks_check_python_gil h.
Proof.
  intros Hunset.
  unfold c10_impl.after_SetPythonGILHooks, c10_impl.SetPythonGILHooks,
    c10_impl.disable_detection, c10_impl.getenv.
  rewrite Hunset. simpl.
  destruct (bool_decide (is_Some (c10_impl.python_gil_hooks g))); simpl;
    [discriminate |].
  intros Hinst. injection Hinst as <-. simpl. split; reflexivity.
Qed.

Lemma SetPythonGILHooks_never_replaces_witness :
  let first := {| c10_impl.hooks_check_python_gil := true |} in
  let second := {| c10_impl.hooks_check_python_gil := false |} in
  let installed := {| c10_impl.python_gil_hooks := Some first |} in
  c10_impl.SetPythonGILHooks ∅ (Some second) installed
    = Threw (c10_impl.InternalAssert "!hooks || !python_gil_hooks") /\
  c10_impl.check_python_gil
    (c10_impl.after_SetPythonGILHooks ∅ installed (Some second)) = true.
Proof.
  intros first second installed.
  apply (SetPythonGILHooks_never_replaces ∅ c10_impl.initial installed first second);
    reflexivity.
Defined.

(** X3: while the variable is in the environment, no sequence of calls of
    [SetPythonGILHooks] changes the stored hooks; started without hooks,
    [check_python_gil] answers false after any such sequence. *)
Theorem check_python_gil_false_while_disabled
    (environ : gmap string string) (value : string)
    (calls : list (option c10_impl.PythonGILHooks)) (g : c10_impl.Globals) :
  environ !! "TORCH_DISABLE_DEADLOCK_DETECTION" = Some value ->
  foldl (c10_impl.after_SetPythonGILHooks environ) g calls = g /\
  c10_impl.check_python_gil
    (foldl (c10_impl.after_SetPythonGILHooks environ) c10_impl.initial calls)
    = false.
Proof.
  intros Hset.
  assert (Hstep : forall g0 hooks,
            c10_impl.after_SetPythonGILHooks environ g0 hooks = g0).
  { intros g0 hooks.
    unfold c10_impl.after_SetPythonGILHooks, c10_impl.SetPythonGILHooks.
    rewrite (proj2 (disable_detection_presence environ)) by eauto.
    reflexivity. }
  assert (Hfold : forall g0,
            foldl (c10_impl.after_SetPythonGILHooks environ) g0 calls = g0).
  { induction calls as [|c calls IH]; intros g0; simpl; [reflexivity |].
    rewrite Hstep. apply IH. }
  split; [apply Hfold |]. rewrite Hfold. reflexivity.
Qed.

Lemma check_python_gil_false_while_disabled_witness :
  let environ : gmap string string :=
    {[ "TORCH_DISABLE_DEADLOCK_DETECTION" := "0" ]} in
  let calls := [Some {| c10_impl.hooks_check_python_gil := true |}; None;
                Some {| c10_impl.hooks_check_python_gil := true |}] in
  foldl (c10_impl.after_SetPythonGILHooks environ) c10_impl.initial calls
    = c10_impl.initial /\
  c10_impl.check_python_gil
    (foldl (c10_impl.after_SetPythonGILHooks environ) c10_impl.initial calls)
    = false.
Proof.
  intros environ calls.
  apply (check_python_gil_false_while_disabled environ "0").
  vm_compute. reflexivity.
Defined.

(** ** The default accelerator is an accelerator *)

(** X4: whatever device type [getAccelerator] returns is one that
    [isAccelerator] accepts; in particular it never returns the CPU. *)
Theorem getAccelerator_returns_an_accelerator
    (ctx : ATen.Context) (checked : bool) (d : ATen.DeviceType) :
  ATen.getAccelerator ctx checked = Returned (Some d) ->
  ATen.isAccelerator d = true /\ d <> ATen.kCPU.
Proof.
  destruct ctx as [p c m x h s].
  destruct p, c, m, x, h, s, checked; simpl; intros H;
    first [discriminate H | injection H as <-; split; [reflexivity | discriminate]].
Qed.

Lemma getAccelerator_returns_an_accelerator_witness :
  ATen.isAccelerator ATen.kXPU = true /\ ATen.kXPU <> ATen.kCPU.
Proof.
  apply (getAccelerator_returns_an_accelerator
           {| ATen.is_privateuse1_backend_registered := false;
              ATen.hasCUDA := false; ATen.hasMTIA := false; ATen.hasXPU := true;
              ATen.hasHIP := false; ATen.hasMPS := false |} true).
  reflexivity.
Defined.

(** X5: the [checked] flag matters only when there is nothing to return:
    with a PrivateUse1 backend registered or any built-in accelerator
    detected, the checked and the unchecked call end the same way (conflict
    errors included); with neither, the unchecked call returns nullopt and
    the checked call throws. *)
Theorem getAccelerator_checked_only_when_none (ctx : ATen.Context) :
  if ATen.is_privateuse1_backend_registered ctx
     || negb (bool_decide (ATen.detected ctx = []))
  then ATen.getAccelerator ctx true = ATen.getAccelerator ctx false
  else ATen.getAccelerator ctx false = Returned None /\
       ATen.getAccelerator ctx true
         = Threw ATen.Cannot_access_accelerator_when_none_available.
Proof.
  destruct ctx as [p c m x h s].
  destruct p, c, m, x, h, s; vm_compute; try reflexivity.
  split; reflexivity.
Qed.

(** ** The call counter of the custom add kernel *)

(** X6: [custom_add_called] reports calls once: whatever the state, a
    second poll right after a poll answers false, and polling never changes
    the call counter. *)
Theorem custom_add_called_reports_once (g : open_registration.Globals) :
  fst (open_registration.custom_add_called
         (snd (open_registration.custom_add_called g))) = false /\
  open_registration.add_counter (snd (open_registration.custom_add_called g))
    = open_registration.add_counter g.
Proof.
  unfold open_registration.custom_add_called.
  destruct (Z.gtb_spec (open_registration.add_counter g)
              (open_registration.last_saved_value g)) as [Hgt | Hle]; simpl.
  - rewrite Z.gtb_ltb, Z.ltb_irrefl. split; reflexivity.
  - destruct (Z.gtb_spec (open_registration.add_counter g)
                (open_registration.last_saved_value g)); [lia |].
    split; reflexivity.
Qed.

Lemma after_adds_counter (calls : list (open_registration.Tensor *
                                        open_registration.Tensor * Z))
    (g : open_registration.Globals) :
  0 <= open_registration.add_counter g ->
  open_registration.add_counter g + Z.of_nat (length calls) <= UINT64_MAX ->
  open_registration.add_counter (open_registration.after_adds g calls)
    = open_registration.add_counter g + Z.of_nat (length calls) /\
  open_registration.last_saved_value (open_registration.after_adds g calls)
    = open_registration.last_saved_value g.
Proof.
  revert g. induction calls as [|[[self other] alpha] calls IH]; intros g Hpos Hmax.
  - simpl. split; [lia | reflexivity].
  - unfold open_registration.after_adds in *. cbn [foldl length] in *.
    assert (Hstep : open_registration.add_counter
                      (snd (open_registration.custom_add_Tensor self other alpha g))
                    = open_registration.add_counter g + 1 /\
                    open_registration.last_saved_value
                      (snd (open_registration.custom_add_Tensor self other alpha g))
                    = open_registration.last_saved_value g).
    { unfold open_registration.custom_add_Tensor, open_registration.at_empty,
        open_registration.custom_empty_symint, open_registration.empty_generic.
      destruct (open_registration.opt_device (open_registration.options self))
        as [[[] ?]|]; cbn -[wrap64 fresh];
        (split; [| reflexivity]);
        unfold wrap64, UINT64_MAX in *; apply Z.mod_small; lia. }
    destruct Hstep as [Hc Hl].
    destruct (IH (snd (open_registration.custom_add_Tensor self other alpha g)))
      as [IHc IHl]; [lia | lia |].
    rewrite IHc, IHl, Hc, Hl. split; [lia | reflexivity].
Qed.

(** X7: however many calls of add.Tensor reach the custom kernel since the
    last poll, one or more, the next poll answers true and the counter has
    gone up by their number, as long as the 64-bit counter does not wrap;
    the tensors passed play no part. *)
Theorem custom_add_called_after_calls
    (calls : list (open_registration.Tensor * open_registration.Tensor * Z))
    (g : open_registration.Globals) :
  calls <> [] ->
  0 <= open_registration.last_saved_value g <= open_registration.add_counter g ->
  open_registration.add_counter g + Z.of_nat (length calls) <= UINT64_MAX ->
  fst (open_registration.custom_add_called (open_registration.after_adds g calls))
    = true /\
  open_registration.add_counter (open_registration.after_adds g calls)
    = open_registration.add_counter g + Z.of_nat (length calls).
Proof.
  intros Hne Hsaved Hmax.
  destruct (after_adds_counter calls g) as [Hc Hl]; [lia | lia |].
  split; [| exact Hc].
  unfold open_registration.custom_add_called. rewrite Hc, Hl.
  destruct calls as [|c calls]; [congruence |]. cbn [length].
  destruct (Z.gtb_spec (open_registration.add_counter g + Z.of_nat (S (length calls)))
              (open_registration.last_saved_value g)); [reflexivity | lia].
Qed.

Lemma custom_add_called_after_calls_witness :
  let calls := [(ones_on_custom_device, twos_on_custom_device, 1);
                (twos_on_custom_device, ones_on_custom_device, 2)] in
  fst (open_registration.custom_add_called
         (open_registration.after_adds ones_and_twos calls)) = true /\
  open_registration.add_counter (open_registration.after_adds ones_and_twos calls)
    = 0 + Z.of_nat (length calls).
Proof.
  intros calls.
  apply (custom_add_called_after_calls calls ones_and_twos).
  - discriminate.
  - simpl. lia.
  - vm_compute. discriminate.
Defined.

(** ** The device index of the custom device *)

(** X8: a tensor made by the custom kernels carries the device index last
    given to [set_custom_device_index], as the 8-bit signed integer it is
    stored as (an index from -128 to 127 is carried as it is, any other
    reduced modulo 256), whatever index the call asks for or the operand
    carries, while [get_custom_device] always answers index 0. *)
Theorem custom_tensors_carry_the_global_device_index
    (index : Z) (size : list Z) (dtype : option ATen.ScalarType)
    (dev : option open_registration.Device)
    (self other : open_registration.Tensor) (alpha : Z)
    (g : open_registration.Globals) :
  open_registration.dev_type (open_registration.device self) = ATen.kPrivateUse1 ->
  open_registration.device
    (fst (open_registration.custom_empty_symint size dtype dev
            (open_registration.set_custom_device_index index g)))
    = {| open_registration.dev_type := ATen.kPrivateUse1;
         open_registration.dev_index := wrap_int8 index |} /\
  open_registration.device
    (fst (open_registration.custom_add_Tensor self other alpha
            (open_registration.set_custom_device_index index g)))
    = {| open_registration.dev_type := ATen.kPrivateUse1;
         open_registration.dev_index := wrap_int8 index |} /\
  -128 <= wrap_int8 index <= 127 /\
  (-128 <= index <= 127 -> wrap_int8 index = index) /\
  open_registration.dev_index open_registration.get_custom_device = 0.
Proof.
  intros Hdev.
  destruct self as [sz st off ty [dt di] ct blk]; simpl in Hdev; subst dt.
  split; [reflexivity |]. split; [reflexivity |].
  unfold wrap_int8.
  pose proof (Z.mod_pos_bound (index + 128) 256 ltac:(lia)) as Hbound.
  split; [lia |]. split; [| reflexivity].
  intros Hrange. rewrite Z.mod_small by lia. lia.
Qed.

Lemma custom_tensors_carry_the_global_device_index_witness :
  open_registration.device
    (fst (open_registration.custom_add_Tensor ones_on_custom_device
            twos_on_custom_device 1
            (open_registration.set_custom_device_index 5 ones_and_twos)))
    = {| open_registration.dev_type := ATen.kPrivateUse1;
         open_registration.dev_index := 5 |} /\
  open_registration.dev_index (open_registration.device ones_on_custom_device) = 0.
Proof.
  destruct (custom_tensors_carry_the_global_device_index 5 [3] None None
              ones_on_custom_device twos_on_custom_device 1 ones_and_twos)
    as (_ & Hadd & _); [reflexivity |].
  split; [exact Hadd | reflexivity].
Defined.

Example set_custom_device_index_wraps :
  open_registration.custom_device_index
    (open_registration.set_custom_device_index 200 ones_and_twos) = -56.
Proof. reflexivity. Qed.

(** ** Serialization of the backend metadata *)

(** X9: serializing the backend metadata of a tensor into an empty map and
    deserializing the map onto another tensor preserves what
    [check_backend_meta] answers, for a tensor without metadata and for one
    with any [CustomBackendMetadata]; the metadata set by
    [custom_set_backend_meta] comes back exactly. *)
Theorem backend_meta_round_trip (meta : option open_registration.BackendMeta) :
  meta <> Some open_registration.OtherBackendMeta ->
  exists m,
    open_registration.for_serialization meta ∅ = Some m /\
    open_registration.check_backend_meta (open_registration.for_deserialization m)
      = open_registration.check_backend_meta meta /\
    (meta = open_registration.custom_set_backend_meta ->
     open_registration.for_deserialization m = meta).
Proof.
  intros Hcustom.
  destruct meta as [[v f c|]|]; [| congruence |].
  - eexists. split; [reflexivity |].
    unfold open_registration.for_deserialization,
      open_registration.check_backend_meta.
    destruct (Z.eqb_spec v 1) as [-> | Hv], (Z.eqb_spec f 29) as [-> | Hf];
      (split; [vm_compute; reflexivity |]);
      unfold open_registration.custom_set_backend_meta; intros H;
      inversion H; subst; first [congruence | vm_compute; reflexivity].
  - exists ∅. split; [reflexivity |]. split; [reflexivity |].
    unfold open_registration.custom_set_backend_meta. discriminate.
Qed.

Lemma backend_meta_round_trip_witness :
  exists m,
    open_registration.for_serialization open_registration.custom_set_backend_meta ∅
      = Some m /\
    open_registration.check_backend_meta (open_registration.for_deserialization m)
      = Some true.
Proof.
  destruct (backend_meta_round_trip open_registration.custom_set_backend_meta)
    as (m & Hser & Hcheck & _); [discriminate |].
  exists m. split; [exact Hser | exact Hcheck].
Defined.

(** X10: deserialization looks at which keys the map has, never at the
    values under them: two maps with the same keys give the same metadata,
    so a key stored with [false] counts like one stored with [true]. *)
Theorem for_deserialization_reads_keys_only (m1 m2 : gmap string bool) :
  dom m1 = dom m2 ->
  open_registration.for_deserialization m1
  = open_registration.for_deserialization m2.
Proof.
  intros Hdom. unfold open_registration.for_deserialization.
  assert (Hkey : forall k, bool_decide (is_Some (m1 !! k))
                           = bool_decide (is_Some (m2 !! k))).
  { intros k. apply bool_decide_ext. rewrite <- !elem_of_dom, Hdom. reflexivity. }
  rewrite !Hkey. reflexivity.
Qed.

Lemma for_deserialization_reads_keys_only_witness :
  open_registration.for_deserialization
    {[ "backend_version_format" := false; "format_number" := false ]}
  = open_registration.for_deserialization
    {[ "backend_version_format" := true; "format_number" := true ]}.
Proof.
  apply for_deserialization_reads_keys_only.
  rewrite !dom_insert_L. reflexivity.
Defined.

(** X11: serialization only adds keys, so a map that already holds both
    keys deserializes to metadata that passes [check_backend_meta] whatever
    tensor was serialized into it, one without metadata included. *)
Theorem for_serialization_keeps_stale_keys
    (meta : option open_registration.BackendMeta) (m m' : gmap string bool) :
  is_Some (m !! "backend_version_format") ->
  is_Some (m !! "format_number") ->
  open_registration.for_serialization meta m = Some m' ->
  dom m ⊆ dom m' /\
  open_registration.check_backend_meta (open_registration.for_deserialization m')
    = Some true.
Proof.
  intros Hv Hf Hser.
  assert (Hsub : dom m ⊆ dom m').
  { destruct meta as [[v f c|]|]; simpl in Hser; [| discriminate |].
    - injection Hser as <-.
      destruct (v =? 1), (f =? 29); rewrite ?dom_insert_L; set_solver.
    - injection Hser as <-. reflexivity. }
  split; [exact Hsub |].
  unfold open_registration.for_deserialization.
  rewrite !bool_decide_eq_true_2; [reflexivity | |];
    apply elem_of_dom, Hsub, elem_of_dom; assumption.
Qed.

Lemma for_serialization_keeps_stale_keys_witness :
  let stale : gmap string bool :=
    {[ "backend_version_format" := true; "format_number" := true ]} in
  open_registration.check_backend_meta None = Some false /\
  open_registration.check_backend_meta
    (open_registration.for_deserialization stale) = Some true.
Proof.
  intros stale. split; [reflexivity |].
  apply (for_serialization_keeps_stale_keys None stale stale).
  - vm_compute. eauto.
  - vm_compute. eauto.
  - reflexivity.
Defined.

(** ** Device hooks *)

(** X12: [isPinnedPtr] answers the same for every pointer: false until
    [getPinnedMemoryAllocator] has been called and true from then on,
    whatever other hook calls come in between. *)
Theorem isPinnedPtr_follows_getPinnedMemoryAllocator
    (calls : list open_registration.HooksCall)
    (s : open_registration.HooksState) (data : nat) :
  open_registration.isPinnedPtr data (foldl open_registration.after_call s calls)
  = open_registration.custom_pinned_flag s
    || existsb open_registration.is_getPinnedMemoryAllocator calls.
Proof.
  unfold open_registration.isPinnedPtr.
  revert s. induction calls as [|c calls IH]; intros s; simpl.
  - rewrite orb_false_r. reflexivity.
  - rewrite IH. destruct c as [i | p |]; simpl.
    + unfold open_registration.getDefaultGenerator.
      destruct (open_registration.device_gen s); reflexivity.
    + reflexivity.
    + rewrite orb_true_r. reflexivity.
Qed.

Lemma after_call_keeps_device_gen (calls : list open_registration.HooksCall)
    (s : open_registration.HooksState) (gen : open_registration.Generator) :
  open_registration.device_gen s = Some gen ->
  open_registration.device_gen (foldl open_registration.after_call s calls)
    = Some gen.
Proof.
  revert s. induction calls as [|c calls IH]; intros s Hgen; simpl; [exact Hgen |].
  apply IH. destruct c as [i | p |]; simpl; try exact Hgen.
  unfold open_registration.getDefaultGenerator. rewrite Hgen. exact Hgen.
Qed.

(** X13: the default generator is made once, for the device index of the
    first call of [getDefaultGenerator]; every later call returns that
    generator, whatever index it asks for. *)
Theorem getDefaultGenerator_first_index_wins
    (s : open_registration.HooksState) (first later : Z)
    (calls : list open_registration.HooksCall) :
  open_registration.device_gen s = None ->
  fst (open_registration.getDefaultGenerator first s)
    = open_registration.make_generator_privateuse1 first /\
  fst (open_registration.getDefaultGenerator later
         (foldl open_registration.after_call
            (snd (open_registration.getDefaultGenerator first s)) calls))
    = open_registration.make_generator_privateuse1 first.
Proof.
  intros Hnone.
  assert (Hfirst : open_registration.device_gen
                     (snd (open_registration.getDefaultGenerator first s))
                   = Some (open_registration.make_generator_privateuse1 first)).
  { unfold open_registration.getDefaultGenerator. rewrite Hnone. reflexivity. }
  split.
  - unfold open_registration.getDefaultGenerator. rewrite Hnone. reflexivity.
  - unfold open_registration.getDefaultGenerator at 1.
    rewrite (after_call_keeps_device_gen calls _ _ Hfirst). reflexivity.
Qed.

Lemma getDefaultGenerator_first_index_wins_witness :
  open_registration.gen_device
    (fst (open_registration.getDefaultGenerator 1
            (foldl open_registration.after_call
               (snd (open_registration.getDefaultGenerator 0
                       open_registration.hooks_initial))
               [open_registration.call_getPinnedMemoryAllocator;
                open_registration.call_getDefaultGenerator 2])))
  = {| open_registration.dev_type := ATen.kPrivateUse1;
       open_registration.dev_index := 0 |}.
Proof.
  destruct (getDefaultGenerator_first_index_wins open_registration.hooks_initial
              0 1 [open_registration.call_getPinnedMemoryAllocator;
                   open_registration.call_getDefaultGenerator 2])
    as [_ Hlater]; [reflexivity |].
  rewrite Hlater. reflexivity.
Defined.

(** ** Copies in the basic use case *)

Lemma fmap_bind_list {A B C} (f : B -> C) (g : A -> list B) (l : list A) :
  f <$> (l ≫= g) = l ≫= (fun x => f <$> g x).
Proof.
  induction l as [|x l IH]; [reflexivity |].
  rewrite !bind_cons, fmap_app, IH. reflexivity.
Qed.

Lemma bind_seqZ_blocks (N : Z) (k : nat) :
  0 <= N ->
  seqZ 0 (Z.of_nat k) ≫= (fun i => seqZ (i * N) N) = seqZ 0 (Z.of_nat k * N).
Proof.
  intros HN. induction k as [|k IH]; [reflexivity |].
  rewrite seqZ_S, bind_app, bind_singleton, IH.
  replace (Z.of_nat (S k) * N) with (Z.of_nat k * N + N) by lia.
  rewrite seqZ_app by lia. reflexivity.
Qed.

Lemma bind_all_nil {A B} (l : list A) : l ≫= (fun _ => @nil B) = [].
Proof. induction l as [|x l IH]; [reflexivity |]. rewrite bind_cons. exact IH. Qed.

Lemma numel_nonneg (size : list Z) :
  Forall (fun n => 0 <= n) size -> 0 <= open_registration.numel size.
Proof.
  unfold open_registration.numel.
  induction 1 as [|n rest Hn _ IH]; simpl; [lia | nia].
Qed.

Lemma contiguous_stride_is_numel (size : list Z) :
  Forall (fun n => 0 <= n) size -> 0 < open_registration.numel size ->
  foldr (fun n acc => Z.max n 1 * acc) 1 size = open_registration.numel size.
Proof.
  unfold open_registration.numel.
  induction 1 as [|n rest Hn Hrest IH]; simpl; intros Hpos; [reflexivity |].
  pose proof (numel_nonneg rest Hrest) as Hr. unfold open_registration.numel in Hr.
  rewrite IH by nia. rewrite Z.max_l by nia. reflexivity.
Qed.

(** Row-major enumeration under row-major strides walks the cells in
    order. *)
Lemma linear_offsets_contiguous (size : list Z) :
  Forall (fun n => 0 <= n) size ->
  open_registration.linear_offset (open_registration.contiguous_strides size)
    <$> open_registration.indices size
  = seqZ 0 (open_registration.numel size).
Proof.
  induction 1 as [|n rest Hn Hrest IH]; [reflexivity |].
  cbn [open_registration.indices open_registration.contiguous_strides].
  rewrite fmap_bind_list.
  set (S0 := foldr (fun n acc => Z.max n 1 * acc) 1 rest).
  assert (Hinner : forall i,
            open_registration.linear_offset
              (S0 :: open_registration.contiguous_strides rest)
              <$> ((fun idx => i :: idx) <$> open_registration.indices rest)
            = Z.add (i * S0) <$> seqZ 0 (open_registration.numel rest)).
  { intros i. rewrite <- IH, <- !list_fmap_compose. reflexivity. }
  rewrite (list_bind_ext _ (fun i => Z.add (i * S0)
                                       <$> seqZ 0 (open_registration.numel rest))
             _ (seqZ 0 n)) by (intros; auto).
  pose proof (numel_nonneg rest Hrest) as Hr.
  change (open_registration.numel (n :: rest))
    with (n * open_registration.numel rest).
  destruct (Z.eq_dec (open_registration.numel rest) 0) as [Hz | Hnz].
  - rewrite Hz, Z.mul_0_r. simpl. apply bind_all_nil.
  - assert (HS0 : S0 = open_registration.numel rest)
      by (apply contiguous_stride_is_numel; [assumption | lia]).
    rewrite HS0.
    rewrite (list_bind_ext _ (fun i => seqZ (i * open_registration.numel rest)
                                         (open_registration.numel rest))
               _ (seqZ 0 n)); [| | reflexivity].
    + rewrite <- (Z2Nat.id n) by assumption. apply bind_seqZ_blocks. assumption.
    + intros i. rewrite fmap_add_seqZ. f_equal. lia.
Qed.

Lemma read_all_cells (b : list Z) :
  (fun z => default 0 (b !! Z.to_nat z)) <$> seqZ 0 (Z.of_nat (length b)) = b.
Proof.
  apply list_eq. intros i. rewrite list_lookup_fmap.
  destruct (decide (i < length b)%nat) as [Hlt | Hge].
  - rewrite lookup_seqZ_lt by lia. rewrite Z.add_0_l.
    cbn -[Z.to_nat Z.of_nat]. rewrite Nat2Z.id.
    destruct (lookup_lt_is_Some_2 b i Hlt) as [x Hx]. rewrite Hx. reflexivity.
  - rewrite lookup_seqZ_ge by lia. rewrite lookup_ge_None_2 by lia. reflexivity.
Qed.

(** Through a handle of the basic use case one reads the block as it is. *)
Lemma elements_whole_block (h : gmap nat (list Z)) (t : open_registration.Tensor)
    (b : list Z) :
  open_registration.whole_block h t ->
  h !! open_registration.storage t = Some b ->
  open_registration.elements h t = b.
Proof.
  intros (Hoff & Hstr & Hnonneg & _ & b' & Hb' & Hlen) Hb.
  rewrite Hb in Hb'. injection Hb' as <-.
  unfold open_registration.elements. rewrite Hb. simpl.
  transitivity ((fun z => default 0 (b !! Z.to_nat z))
                  <$> (open_registration.linear_offset (open_registration.strides t)
                         <$> open_registration.indices (open_registration.sizes t))).
  - rewrite <- list_fmap_compose. apply list_fmap_ext. intros i idx _. simpl.
    unfold open_registration.cell_of, open_registration.linear_offset.
    rewrite Hoff. reflexivity.
  - rewrite Hstr, linear_offsets_contiguous by assumption.
    rewrite <- (Z2Nat.id (open_registration.numel (open_registration.sizes t)))
      by (apply numel_nonneg; assumption).
    rewrite <- Hlen. apply read_all_cells.
Qed.

Lemma copy_between_whole_blocks
    (copy_ : open_registration.Tensor -> open_registration.Tensor ->
             gmap nat (list Z) -> gmap nat (list Z))
    (self dst : open_registration.Tensor) (non_blocking : bool)
    (g : open_registration.Globals) (s : list Z) :
  open_registration.copy_preconditions self dst = true ->
  open_registration.whole_block (open_registration.heap g) self ->
  open_registration.whole_block (open_registration.heap g) dst ->
  open_registration.storage dst <> open_registration.storage self ->
  open_registration.heap g !! open_registration.storage self = Some s ->
  open_registration.custom__copy_from copy_ self dst non_blocking g
  = Some (Returned (dst, open_registration.with_heap g
            (<[open_registration.storage dst := s]> (open_registration.heap g)))).
Proof.
  intros Hpre Hself Hdst Hne Hs.
  destruct Hself as (_ & _ & _ & Hcs & bs & Hbs & Hls).
  destruct Hdst as (_ & _ & _ & Hcd & bd & Hbd & Hld).
  rewrite Hs in Hbs. injection Hbs as <-.
  assert (Hcontig : open_registration.is_contiguous self
                    && open_registration.is_contiguous dst = true)
    by (rewrite Hcs, Hcd; reflexivity).
  unfold open_registration.copy_preconditions in Hpre.
  unfold open_registration.custom__copy_from.
  pass_checks Hpre Hcontig.
  apply bool_decide_eq_true_1 in Hsz.
  assert (Hlen : length s = length bd) by (rewrite Hls, Hld, Hsz; reflexivity).
  unfold open_registration.storage_cells. rewrite Hs. simpl.
  rewrite (memcpy_whole_block _ _ bd s) by (auto; lia).
  rewrite Hlen, drop_all, app_nil_r. reflexivity.
Qed.

Lemma whole_block_after_write (h : gmap nat (list Z))
    (t : open_registration.Tensor) (k : nat) (b : list Z) :
  open_registration.whole_block h t ->
  (k = open_registration.storage t ->
   length b = Z.to_nat (open_registration.numel (open_registration.sizes t))) ->
  open_registration.whole_block (<[k := b]> h) t.
Proof.
  intros (Hoff & Hstr & Hnn & Hc & b0 & Hb0 & Hl0) Hlen.
  repeat (split; [assumption |]).
  destruct (decide (k = open_registration.storage t)) as [-> | Hne].
  - exists b. rewrite lookup_insert_eq. auto.
  - exists b0. rewrite lookup_insert_ne by assumption. auto.
Qed.

(** X14: in the basic use case, two tensors of equal sizes and scalar type
    on the CPU or the custom device, each covering the whole of its own
    block in row-major order, [custom__copy_from] returns the destination,
    the destination then reads element for element what the source read,
    and the source reads what it read before. *)
Theorem custom__copy_from_copies_the_elements
    (copy_ : open_registration.Tensor -> open_registration.Tensor ->
             gmap nat (list Z) -> gmap nat (list Z))
    (self dst : open_registration.Tensor) (non_blocking : bool)
    (g : open_registration.Globals) :
  open_registration.copy_preconditions self dst = true ->
  open_registration.whole_block (open_registration.heap g) self ->
  open_registration.whole_block (open_registration.heap g) dst ->
  open_registration.storage dst <> open_registration.storage self ->
  exists g',
    open_registration.custom__copy_from copy_ self dst non_blocking g
      = Some (Returned (dst, g')) /\
    open_registration.elements (open_registration.heap g') dst
      = open_registration.elements (open_registration.heap g) self /\
    open_registration.elements (open_registration.heap g') self
      = open_registration.elements (open_registration.heap g) self.
Proof.
  intros Hpre Hself Hdst Hne.
  pose proof Hself as (_ & _ & _ & _ & s & Hs & Hls).
  eexists. split; [apply (copy_between_whole_blocks _ _ _ _ _ s); assumption |].
  assert (Hsz : open_registration.sizes self = open_registration.sizes dst).
  { unfold open_registration.copy_preconditions in Hpre.
    apply andb_prop in Hpre as [Hpre _]. apply andb_prop in Hpre as [_ Hsz].
    apply bool_decide_eq_true_1 in Hsz. exact Hsz. }
  simpl. rewrite (elements_whole_block _ self s Hself Hs). split.
  - apply elements_whole_block.
    + apply whole_block_after_write; [assumption |]. intros _. rewrite <- Hsz. exact Hls.
    + apply lookup_insert_eq.
  - apply elements_whole_block.
    + apply whole_block_after_write; [assumption |]. intros Heq. congruence.
    + rewrite lookup_insert_ne by assumption. exact Hs.
Qed.

Lemma custom__copy_from_copies_the_elements_witness :
  exists g',
    open_registration.custom__copy_from open_registration.strided_copy
      (vector3 cpu_device 1) (vector3 custom_device 0) false ones_and_twos
      = Some (Returned (vector3 custom_device 0, g')) /\
    open_registration.elements (open_registration.heap g') (vector3 custom_device 0)
      = [2; 2; 2].
Proof.
  destruct (custom__copy_from_copies_the_elements open_registration.strided_copy
              (vector3 cpu_device 1) (vector3 custom_device 0) false ones_and_twos)
    as (g' & Hcall & Hdst & _).
  - reflexivity.
  - repeat split; [repeat constructor; lia |]. exists [2; 2; 2]. split; reflexivity.
  - repeat split; [repeat constructor; lia |]. exists [1; 1; 1]. split; reflexivity.
  - discriminate.
  - exists g'. split; [exact Hcall |]. rewrite Hdst. vm_compute. reflexivity.
Defined.

(** X15: a round trip through the custom device gives the elements back:
    in the basic use case, copying a CPU tensor to a device tensor and the
    device tensor to a second CPU tensor leaves the second CPU tensor
    reading what the first one read. *)
Theorem custom__copy_from_round_trip
    (copy_ : open_registration.Tensor -> open_registration.Tensor ->
             gmap nat (list Z) -> gmap nat (list Z))
    (src dev back : open_registration.Tensor) (g : open_registration.Globals) :
  open_registration.copy_preconditions src dev = true ->
  open_registration.copy_preconditions dev back = true ->
  open_registration.whole_block (open_registration.heap g) src ->
  open_registration.whole_block (open_registration.heap g) dev ->
  open_registration.whole_block (open_registration.heap g) back ->
  open_registration.storage dev <> open_registration.storage src ->
  open_registration.storage back <> open_registration.storage dev ->
  exists g1 g2,
    open_registration.custom__copy_from copy_ src dev false g
      = Some (Returned (dev, g1)) /\
    open_registration.custom__copy_from copy_ dev back false g1
      = Some (Returned (back, g2)) /\
    open_registration.elements (open_registration.heap g2) back
      = open_registration.elements (open_registration.heap g) src.
Proof.
  intros Hpre1 Hpre2 Hsrc Hdev Hback Hne1 Hne2.
  pose proof Hsrc as (_ & _ & _ & _ & s & Hs & Hls).
  assert (Hsz1 : open_registration.sizes src = open_registration.sizes dev).
  { unfold open_registration.copy_preconditions in Hpre1.
    apply andb_prop in Hpre1 as [Hp _]. apply andb_prop in Hp as [_ Hsz].
    apply bool_decide_eq_true_1 in Hsz. exact Hsz. }
  assert (Hsz2 : open_registration.sizes dev = open_registration.sizes back).
  { unfold open_registration.copy_preconditions in Hpre2.
    apply andb_prop in Hpre2 as [Hp _]. apply andb_prop in Hp as [_ Hsz].
    apply bool_decide_eq_true_1 in Hsz. exact Hsz. }
  eexists _, _.
  split; [apply (copy_between_whole_blocks _ _ _ _ _ s); assumption |].
  split.
  - apply (copy_between_whole_blocks _ _ _ _ _ s); simpl.
    + assumption.
    + apply whole_block_after_write; [assumption |]. intros _.
      rewrite <- Hsz1. exact Hls.
    + apply whole_block_after_write; [assumption |]. intros Heq. congruence.
    + assumption.
    + apply lookup_insert_eq.
  - simpl. rewrite (elements_whole_block _ src s Hsrc Hs).
    apply elements_whole_block; [| apply lookup_insert_eq].
    apply whole_block_after_write.
    + apply whole_block_after_write; [assumption |]. intros Heq. congruence.
    + intros _. rewrite <- Hsz2, <- Hsz1. exact Hls.
Qed.

Lemma custom__copy_from_round_trip_witness :
  exists g1 g2,
    open_registration.custom__copy_from open_registration.strided_copy
      (vector3 cpu_device 0) (vector3 custom_device 1) false three_vectors
      = Some (Returned (vector3 custom_device 1, g1)) /\
    open_registration.custom__copy_from open_registration.strided_copy
      (vector3 custom_device 1) (vector3 cpu_device 2) false g1
      = Some (Returned (vector3 cpu_device 2, g2)) /\
    open_registration.elements (open_registration.heap g2) (vector3 cpu_device 2)
      = [4; 5; 6].
Proof.
  destruct (custom__copy_from_round_trip open_registration.strided_copy
              (vector3 cpu_device 0) (vector3 custom_device 1)
              (vector3 cpu_device 2) three_vectors)
    as (g1 & g2 & H1 & H2 & Hback).
  - reflexivity.
  - reflexivity.
  - repeat split; [repeat constructor; lia |]. exists [4; 5; 6]. split; reflexivity.
  - repeat split; [repeat constructor; lia |]. exists [0; 0; 0]. split; reflexivity.
  - repeat split; [repeat constructor; lia |]. exists [9; 9; 9]. split; reflexivity.
  - discriminate.
  - discriminate.
  - exists g1, g2. split; [exact H1 |]. split; [exact H2 |].
    rewrite Hback. vm_compute. reflexivity.
Defined.

(** X16: the raw copy of the contiguous branch looks at the two storages
    and at nothing else: for contiguous tensors that pass the checks, the
    memory after the call, or its running into undefined behaviour, is the
    same for any other pair of contiguous tensors over the same two
    storages that passes the checks, whatever their sizes, strides and
    storage offsets. *)
Theorem custom__copy_from_raw_copy_ignores_layout
    (copy_ : open_registration.Tensor -> open_registration.Tensor ->
             gmap nat (list Z) -> gmap nat (list Z))
    (self dst self' dst' : open_registration.Tensor) (non_blocking : bool)
    (g : open_registration.Globals) :
  open_registration.copy_preconditions self dst = true ->
  open_registration.copy_preconditions self' dst' = true ->
  open_registration.is_contiguous self && open_registration.is_contiguous dst = true ->
  open_registration.is_contiguous self' && open_registration.is_contiguous dst' = true ->
  open_registration.storage self' = open_registration.storage self ->
  open_registration.storage dst' = open_registration.storage dst ->
  match open_registration.custom__copy_from copy_ self dst non_blocking g with
  | Some (Returned (r, g1)) =>
      r = dst /\
      open_registration.custom__copy_from copy_ self' dst' non_blocking g
        = Some (Returned (dst', g1))
  | Some (Threw _) => False
  | None =>
      open_registration.custom__copy_from copy_ self' dst' non_blocking g = None
  end.
Proof.
  intros Hpre Hpre' Hcontig Hcontig' Hs Hd.
  unfold open_registration.copy_preconditions in Hpre, Hpre'.
  unfold open_registration.custom__copy_from.
  pass_checks Hpre' Hcontig'. pass_checks Hpre Hcontig.
  unfold open_registration.storage_cells. rewrite Hs, Hd.
  destruct (open_registration.memcpy _ _ _ _); [split |]; reflexivity.
Qed.

Lemma custom__copy_from_raw_copy_ignores_layout_witness :
  exists g1,
    open_registration.custom__copy_from open_registration.strided_copy
      (vector3 cpu_device 0) (vector3 custom_device 1) false three_vectors
      = Some (Returned (vector3 custom_device 1, g1)) /\
    open_registration.custom__copy_from open_registration.strided_copy
      (tail2 cpu_device 0) (tail2 custom_device 1) false three_vectors
      = Some (Returned (tail2 custom_device 1, g1)) /\
    open_registration.elements (open_registration.heap three_vectors)
      (tail2 cpu_device 0) = [5; 6] /\
    open_registration.heap g1 !! 1%nat = Some [4; 5; 6].
Proof.
  pose proof (custom__copy_from_raw_copy_ignores_layout
                open_registration.strided_copy
                (vector3 cpu_device 0) (vector3 custom_device 1)
                (tail2 cpu_device 0) (tail2 custom_device 1) false three_vectors
                eq_refl eq_refl eq_refl eq_refl eq_refl eq_refl) as H.
  destruct (open_registration.custom__copy_from open_registration.strided_copy
              (vector3 cpu_device 0) (vector3 custom_device 1) false three_vectors)
    as [[[r g1] | e] |] eqn:Hcall; [| contradiction | discriminate Hcall].
  destruct H as [-> H']. exists g1.
  split; [reflexivity |]. split; [exact H' |]. split; [vm_compute; reflexivity |].
  vm_compute in Hcall. injection Hcall as <-. vm_compute. reflexivity.
Defined.

(** ** The attention kernel of the custom device *)

(** What [at::empty] gives: a tensor of the asked shape and element type,
    in a block that did not exist, all other blocks being kept. *)
Lemma at_empty_fresh (size : list Z) (o : open_registration.TensorOptions)
    (g : open_registration.Globals) :
  let t := fst (open_registration.at_empty size o g) in
  let g' := snd (open_registration.at_empty size o g) in
  open_registration.sizes t = size /\
  open_registration.scalar_type t
    = open_registration.dtype_or_default (open_registration.opt_dtype o) /\
  (open_registration.storage t ∉ dom (open_registration.heap g)) /\
  dom (open_registration.heap g')
    = {[open_registration.storage t]} ∪ dom (open_registration.heap g) /\
  open_registration.dev_type (open_registration.device t)
    = match open_registration.opt_device o with
      | Some {| open_registration.dev_type := ATen.kPrivateUse1 |} =>
          ATen.kPrivateUse1
      | _ => ATen.kCPU
      end.
Proof.
  unfold open_registration.at_empty, open_registration.custom_empty_symint,
    open_registration.empty_generic.
  destruct (open_registration.opt_device o) as [[[] ?]|]; cbn -[fresh];
    rewrite dom_insert_L; repeat split; apply is_fresh.
Qed.

(** X17: the attention kernel raises, on reading a size and before
    anything is allocated, whenever the query or the value has fewer than
    four dimensions or the key fewer than three. *)
Theorem attention_raises_on_low_rank
    (query key value : open_registration.Tensor)
    (is_causal return_debug_mask : bool) (g : open_registration.Globals) :
  (length (open_registration.sizes query) < 4)%nat \/
  (length (open_registration.sizes value) < 4)%nat \/
  (length (open_registration.sizes key) < 3)%nat ->
  open_registration.custom_scaled_dot_product_fused_attention_overrideable
    query key value is_causal return_debug_mask g
  = Threw (open_registration.Check_failed "Dimension out of range").
Proof.
  unfold open_registration.custom_scaled_dot_product_fused_attention_overrideable,
    open_registration.size.
  intros Hrank.
  destruct (open_registration.sizes query) as [|q0 [|q1 [|q2 [|q3 qs]]]];
    try reflexivity.
  destruct (open_registration.sizes value) as [|v0 [|v1 [|v2 [|v3 vs]]]];
    try reflexivity.
  destruct (open_registration.sizes key) as [|k0 [|k1 [|k2 ks]]];
    try reflexivity.
  simpl in Hrank. lia.
Qed.

Lemma attention_raises_on_low_rank_witness :
  open_registration.custom_scaled_dot_product_fused_attention_overrideable
    (attention_input [2; 4; 5; 8] 0) (attention_input [2; 4] 1)
    (attention_input [2; 4; 7; 16] 2) false false three_vectors
  = Threw (open_registration.Check_failed "Dimension out of range").
Proof.
  apply attention_raises_on_low_rank. right. right. simpl. lia.
Defined.

(** Names the result of the next [at::empty] of the goal and records what
    [at_empty_fresh] says of it. *)
Ltac next_empty t g' H :=
  match goal with
  | |- context [open_registration.at_empty ?a ?b ?c] =>
      pose proof (at_empty_fresh a b c) as H;
      destruct (open_registration.at_empty a b c) as [t g'];
      cbn [fst snd] in H
  end.

(** X18: for a query on the custom device, the attention kernel returns an
    output shaped by the batch, heads and sequence length of the query and
    the head dimension of the value, in the query's element type; a
    logsumexp and a debug mask in float; two scalar long tensors on the CPU
    for the philox state; the two sequence lengths; and undefined tensors
    for the cumulative sequences.  The five tensors sit in five different
    blocks, none of which existed before. *)
Theorem attention_output_shapes
    (query key value : open_registration.Tensor)
    (is_causal return_debug_mask : bool) (g : open_registration.Globals)
    (batch heads len_q dim_qk dim_v len_kv : Z) :
  open_registration.dev_type (open_registration.device query) = ATen.kPrivateUse1 ->
  open_registration.sizes query !! 0%nat = Some batch ->
  open_registration.sizes query !! 1%nat = Some heads ->
  open_registration.sizes query !! 2%nat = Some len_q ->
  open_registration.sizes query !! 3%nat = Some dim_qk ->
  open_registration.sizes value !! 3%nat = Some dim_v ->
  open_registration.sizes key !! 2%nat = Some len_kv ->
  exists out g',
    open_registration.custom_scaled_dot_product_fused_attention_overrideable
      query key value is_causal return_debug_mask g = Returned (out, g') /\
    open_registration.sizes (open_registration.att_output out)
      = [batch; heads; len_q; dim_v] /\
    open_registration.scalar_type (open_registration.att_output out)
      = open_registration.scalar_type query /\
    open_registration.dev_type
      (open_registration.device (open_registration.att_output out))
      = ATen.kPrivateUse1 /\
    open_registration.sizes (open_registration.att_logsumexp out)
      = [batch; heads; len_q] /\
    open_registration.scalar_type (open_registration.att_logsumexp out) = ATen.Float /\
    open_registration.sizes (open_registration.att_debug_attn_mask out)
      = [batch; heads; len_q; len_kv] /\
    open_registration.scalar_type (open_registration.att_debug_attn_mask out)
      = ATen.Float /\
    open_registration.att_max_seqlen_q out = len_q /\
    open_registration.att_max_seqlen_kv out = len_kv /\
    open_registration.att_cum_seq_q out = None /\
    open_registration.att_cum_seq_k out = None /\
    Forall (fun t => open_registration.sizes t = []
                     /\ open_registration.scalar_type t = ATen.Long
                     /\ open_registration.dev_type (open_registration.device t)
                        = ATen.kCPU)
      [open_registration.att_philox_seed out;
       open_registration.att_philox_offset out] /\
    NoDup (open_registration.storage <$>
             [open_registration.att_output out;
              open_registration.att_logsumexp out;
              open_registration.att_debug_attn_mask out;
              open_registration.att_philox_seed out;
              open_registration.att_philox_offset out]) /\
    Forall (fun t => open_registration.storage t
                     ∉ dom (open_registration.heap g))
      [open_registration.att_output out;
       open_registration.att_logsumexp out;
       open_registration.att_debug_attn_mask out;
       open_registration.att_philox_seed out;
       open_registration.att_philox_offset out].
Proof.
  intros Hdev Hb Hh Hq Hqk Hv Hkv.
  unfold open_registration.custom_scaled_dot_product_fused_attention_overrideable,
    open_registration.size.
  rewrite Hb, Hh, Hq, Hqk, Hv, Hkv. cbn -[open_registration.at_empty].
  next_empty t1 g1 H1. next_empty t2 g2 H2. next_empty t3 g3 H3.
  next_empty t4 g4 H4. next_empty t5 g5 H5.
  assert (Hc1 : open_registration.dev_type (open_registration.device t1)
                = ATen.kPrivateUse1).
  { destruct H1 as (_ & _ & _ & _ & ->). simpl.
    destruct (open_registration.device query) as [dt di]; simpl in Hdev; subst dt.
    reflexivity. }
  destruct H1 as (Hs1 & Hty1 & Hf1 & Hd1 & _), H2 as (Hs2 & Hty2 & Hf2 & Hd2 & _),
    H3 as (Hs3 & Hty3 & Hf3 & Hd3 & _), H4 as (Hs4 & Hty4 & Hf4 & Hd4 & Hc4),
    H5 as (Hs5 & Hty5 & Hf5 & Hd5 & Hc5).
  eexists _, _. split; [reflexivity |]. simpl.
  repeat (split; [first [assumption | reflexivity] |]).
  split; [repeat constructor; assumption |].
  clear - Hf1 Hd1 Hf2 Hd2 Hf3 Hd3 Hf4 Hd4 Hf5.
  rewrite Hd4 in Hf5. rewrite Hd3 in Hf4, Hf5. rewrite Hd2 in Hf3, Hf4, Hf5.
  rewrite Hd1 in Hf2, Hf3, Hf4, Hf5.
  repeat match goal with
         | H : _ ∉ _ ∪ _ |- _ => apply not_elem_of_union in H as [? ?]
         | H : _ ∉ {[ _ ]} |- _ => apply not_elem_of_singleton in H
         end.
  split.
  - simpl. repeat (apply NoDup_cons; split); try apply NoDup_nil_2;
      rewrite ?not_elem_of_cons; repeat split;
      try apply not_elem_of_nil; congruence.
  - repeat constructor; assumption.
Qed.

Lemma attention_output_shapes_witness :
  exists out g',
    open_registration.custom_scaled_dot_product_fused_attention_overrideable
      (attention_input [2; 4; 5; 8] 0) (attention_input [2; 4; 7; 8] 1)
      (attention_input [2; 4; 7; 16] 2) false false three_vectors
      = Returned (out, g') /\
    open_registration.sizes (open_registration.att_output out) = [2; 4; 5; 16] /\
    open_registration.sizes (open_registration.att_debug_attn_mask out)
      = [2; 4; 5; 7].
Proof.
  destruct (attention_output_shapes
              (attention_input [2; 4; 5; 8] 0) (attention_input [2; 4; 7; 8] 1)
              (attention_input [2; 4; 7; 16] 2) false false three_vectors
              2 4 5 8 16 7)
    as (out & g' & Hcall & Hout & _ & _ & _ & _ & Hmask & _); try reflexivity.
  exists out, g'. split; [exact Hcall |]. split; [exact Hout | exact Hmask].
Defined.

(** ** The mutex and the trace of AccumulateGrad::apply *)

(** The merge either throws or commits once, whatever it does to the
    storages. *)
Lemma accumulateGrad_throws_or_commits (v : autograd.AutogradVariable)
    (vg : option autograd.Tensor) (g : autograd.Tensor) (n : Z)
    (s : autograd.State) :
  (exists e, autograd.accumulateGrad v vg g n autograd.update_grad s = Threw e) \/
  (exists t hp, autograd.accumulateGrad v vg g n autograd.update_grad s
                = Returned (autograd.update_grad t (autograd.with_heap s hp))).
Proof.
  unfold autograd.accumulateGrad. destruct vg as [g0|].
  - destruct (bool_decide (autograd.sizes g0 = autograd.sizes g)); eauto.
  - destruct (autograd.use_count g >? n); right.
    + eexists _, _. reflexivity.
    + exists g, (autograd.heap s). destruct s; reflexivity.
Qed.

(** X19: [apply] never leaves the mutex of the node held: called with the
    mutex free it does not block, and the mutex is free again when the call
    is over, whether it returns, returns early or throws, the merge
    throwing included. *)
Theorem apply_releases_the_mutex
    (grads : list (option autograd.Tensor)) (s : autograd.State) :
  autograd.mutex_ (autograd.node s) = false ->
  fst (autograd.apply grads s) <> autograd.Blocks /\
  autograd.mutex_ (autograd.node (snd (autograd.apply grads s))) = false.
Proof.
  intros Hfree. unfold autograd.apply.
  destruct (autograd.check_input_variables _ _ _ _); [| split; [discriminate | exact Hfree]].
  destruct (default None (grads !! 0%nat)) as [g|];
    [| split; [discriminate | exact Hfree]].
  destruct (bool_decide (is_Some (autograd.grad_fn
                                   (autograd.variable (autograd.node s)))));
    [split; [discriminate | exact Hfree] |].
  destruct (autograd.requires_grad (autograd.variable (autograd.node s)));
    cbn [negb]; [| split; [discriminate | exact Hfree]].
  rewrite Hfree.
  destruct (accumulateGrad_throws_or_commits
              (autograd.variable (autograd.node (autograd.lock s)))
              (autograd.grad (autograd.variable (autograd.node (autograd.lock s))))
              g (autograd.num_expected_refs (autograd.node (autograd.lock s)))
              (autograd.lock s)) as [[e ->] | (t & hp & ->)];
    split; try discriminate; reflexivity.
Qed.

Lemma apply_releases_the_mutex_witness :
  let s := state_of (with_hook (autograd.mk_AccumulateGrad leaf) observer) in
  fst (autograd.apply [Some grad_in] s) <> autograd.Blocks /\
  autograd.mutex_ (autograd.node (snd (autograd.apply [Some grad_in] s))) = false.
Proof.
  intros s. apply (apply_releases_the_mutex [Some grad_in] s). reflexivity.
Defined.

(** X20: a call of [apply] that returns returns the empty list, and what
    it has done, in order, is one of three things: nothing; lock, one
    commit, unlock, when no hook is registered; lock, one commit, one call
    of the registered hook on the leaf with its new .grad and with the
    mutex held, unlock. *)
Theorem apply_trace_of_returning_call
    (grads : list (option autograd.Tensor)) (s : autograd.State)
    (outputs : list (option autograd.Tensor)) :
  fst (autograd.apply grads s) = autograd.Returns outputs ->
  outputs = [] /\
  exists events,
    autograd.log (snd (autograd.apply grads s)) = autograd.log s ++ events /\
    (events = [] \/
     (autograd.tensor_post_acc_grad_hooks (autograd.node s) = None /\
      exists t, events = [autograd.Lock; autograd.Commit t; autograd.Unlock]) \/
     (exists h t,
        autograd.tensor_post_acc_grad_hooks (autograd.node s) = Some h /\
        events = [autograd.Lock; autograd.Commit t;
                  autograd.Hook (autograd.hook_id h)
                    (autograd.with_grad (autograd.variable (autograd.node s))
                       (Some t)) true;
                  autograd.Unlock])).
Proof.
  unfold autograd.apply.
  destruct (autograd.check_input_variables _ _ _ _); [| discriminate].
  destruct (default None (grads !! 0%nat)) as [g|].
  2: { simpl. intros H. injection H as <-. split; [reflexivity |].
       exists []. rewrite app_nil_r. auto. }
  destruct (bool_decide (is_Some (autograd.grad_fn
                                   (autograd.variable (autograd.node s)))));
    [discriminate |].
  destruct (autograd.requires_grad (autograd.variable (autograd.node s)));
    cbn [negb].
  2: { simpl. intros H. injection H as <-. split; [reflexivity |].
       exists []. rewrite app_nil_r. auto. }
  destruct (autograd.mutex_ (autograd.node s)); [discriminate |].
  destruct (accumulateGrad_throws_or_commits
              (autograd.variable (autograd.node (autograd.lock s)))
              (autograd.grad (autograd.variable (autograd.node (autograd.lock s))))
              g (autograd.num_expected_refs (autograd.node (autograd.lock s)))
              (autograd.lock s)) as [[e ->] | (t & hp & ->)]; [discriminate |].
  cbn [fst snd]. intros H. injection H as <-. split; [reflexivity |].
  unfold autograd.run_tensor_post_acc_grad_hooks. simpl.
  destruct (autograd.tensor_post_acc_grad_hooks (autograd.node s)) as [h|] eqn:Hh.
  - unfold autograd.call_hook. simpl.
    destruct (autograd.hook_call h _ _) as [v' heap'].
    eexists. simpl. rewrite <- !app_assoc. simpl.
    split; [reflexivity |]. right. right. exists h, t. auto.
  - eexists. simpl. rewrite <- !app_assoc. simpl.
    split; [reflexivity |]. right. left. eauto.
Qed.

Lemma apply_trace_of_returning_call_witness :
  let s := state_of (autograd.mk_AccumulateGrad leaf) in
  exists events,
    autograd.log (snd (autograd.apply [Some grad_in] s)) = autograd.log s ++ events /\
    (events = [] \/
     (autograd.tensor_post_acc_grad_hooks (autograd.node s) = None /\
      exists t, events = [autograd.Lock; autograd.Commit t; autograd.Unlock]) \/
     (exists h t,
        autograd.tensor_post_acc_grad_hooks (autograd.node s) = Some h /\
        events = [autograd.Lock; autograd.Commit t;
                  autograd.Hook (autograd.hook_id h)
                    (autograd.with_grad (autograd.variable (autograd.node s))
                       (Some t)) true;
                  autograd.Unlock])).
Proof.
  intros s.
  apply (apply_trace_of_returning_call [Some grad_in] s []).
  reflexivity.
Defined.

(** ** What the custom kernels leave alone *)

(** X21: the custom add kernel never writes to a block that exists: every
    block holds after the call what it held before, and the result sits
    in none of them, so it aliases neither operand. *)
Theorem custom_add_Tensor_leaves_memory_alone
    (self other : open_registration.Tensor) (alpha : Z)
    (g : open_registration.Globals) (k : nat) (b : list Z) :
  open_registration.heap g !! k = Some b ->
  open_registration.heap
    (snd (open_registration.custom_add_Tensor self other alpha g)) !! k = Some b /\
  open_registration.storage
    (fst (open_registration.custom_add_Tensor self other alpha g)) <> k.
Proof.
  intros Hk.
  assert (Hfresh : fresh (dom (open_registration.heap g)) <> k).
  { intros Heq. apply (is_fresh (dom (open_registration.heap g))).
    rewrite Heq. apply elem_of_dom. eauto. }
  unfold open_registration.custom_add_Tensor, open_registration.at_empty,
    open_registration.custom_empty_symint, open_registration.empty_generic.
  destruct (open_registration.opt_device (open_registration.options self))
    as [[[] ?]|]; cbn -[fresh];
    (split; [rewrite lookup_insert_ne by exact Hfresh; exact Hk | exact Hfresh]).
Qed.

Lemma custom_add_Tensor_leaves_memory_alone_witness :
  open_registration.heap
    (snd (open_registration.custom_add_Tensor ones_on_custom_device
            twos_on_custom_device 1 ones_and_twos)) !! 1%nat = Some [2; 2; 2] /\
  open_registration.storage
    (fst (open_registration.custom_add_Tensor ones_on_custom_device
            twos_on_custom_device 1 ones_and_twos)) <> 1%nat.
Proof.
  apply custom_add_Tensor_leaves_memory_alone. reflexivity.
Defined.
